(** * Usage accounting and entitlement gating of [app.py]

    A shallow embedding of the persistence helpers, the Stripe checkout
    helper and the Flask route handlers of [app.py], followed by the
    properties of the usage-accounting and entitlement-gating logic.

    What is modelled and how:
    - [usage.json] is the only persistent state of the program.  Its content
      is the parsed JSON document: an insertion-ordered dict from user ids to
      records, each record a dict from field names to JSON scalars.  The
      outer dict is an association list, because the webhook iterates it in
      order and stops at the first match; a record is a [gmap], because the
      program only ever indexes it by key.
    - Stripe is an external service: its two calls are fields of a
      [StripeAPI], over which every definition is parametric.  A call either
      returns or raises.
    - Python exceptions are an explicit outcome; the state reached before an
      exception is kept, as a write to the file already happened.
    - The zip handling and the OpenAI call of [upload] are inputs of the
      request: whether the uploaded file passes the [.zip] test, and how the
      [try] block ends (the number of refactored files, or an exception). *)

From Stdlib Require Import ZArith NArith Ascii String List Bool Lia.
From stdpp Require Import base option list gmap strings fin_maps.

Local Open Scope string_scope.
Local Open Scope list_scope.
Local Open Scope Z_scope.

(** ** Python values and dicts *)

Module Py.

(** The JSON scalars that occur in [usage.json]: [null], booleans, integers
    and strings.  Floats, arrays and objects as field values are not
    modelled. *)
Inductive value : Type :=
| VNone
| VBool (b : bool)
| VInt (n : Z)
| VStr (s : string).

(** A user record: a Python dict with string keys. *)
Abbreviation record := (gmap string value).

(** The document stored in [usage.json]: [dict] from user id to record, in
    insertion order. *)
Definition data : Type := list (string * record).

Inductive exn : Type :=
| KeyError (k : string)
| TypeError
| StripeError
| IOError.

Inductive outcome (A : Type) : Type :=
| Ret (a : A)
| Raise (e : exn).
Arguments Ret {A} a.
Arguments Raise {A} e.

(** [bool] is a subclass of [int] in Python. *)
Definition as_int (v : value) : option Z :=
  match v with
  | VInt n => Some n
  | VBool b => Some (if b then 1 else 0)
  | VNone | VStr _ => None
  end.

(** Truth value of an object, as tested by [not] and [if]. *)
Definition truthy (v : value) : bool :=
  match v with
  | VNone => false
  | VBool b => b
  | VInt n => negb (n =? 0)
  | VStr s => negb (String.eqb s "")
  end.

(** [a == b] *)
Definition py_eq (a b : value) : bool :=
  match a, b with
  | VNone, VNone => true
  | VStr s, VStr t => String.eqb s t
  | _, _ =>
      match as_int a, as_int b with
      | Some x, Some y => x =? y
      | _, _ => false
      end
  end.

(** [a >= n] for an integer [n]; comparing [None] or a string with an
    integer raises [TypeError]. *)
Definition py_ge (a : value) (n : Z) : outcome bool :=
  match as_int a with
  | Some x => Ret (n <=? x)
  | None => Raise TypeError
  end.

(** [a + n] for an integer [n], the value stored by [a += n]. *)
Definition py_add (a : value) (n : Z) : outcome value :=
  match as_int a with
  | Some x => Ret (VInt (x + n))
  | None => Raise TypeError
  end.

(** [rec[k]] *)
Definition getitem (k : string) (rec : record) : outcome value :=
  match rec !! k with
  | Some v => Ret v
  | None => Raise (KeyError k)
  end.

(** [rec.get(k)] *)
Definition rec_get (k : string) (rec : record) : value :=
  default VNone (rec !! k).

(** [d.get(k)] on the outer dict. *)
Fixpoint dict_get (k : string) (d : data) : option record :=
  match d with
  | [] => None
  | (k', r) :: d' => if String.eqb k' k then Some r else dict_get k d'
  end.

(** [d[k] = r]: an existing key keeps its position, a new key goes last. *)
Fixpoint dict_set (k : string) (r : record) (d : data) : data :=
  match d with
  | [] => [(k, r)]
  | (k', r') :: d' =>
      if String.eqb k' k then (k, r) :: d' else (k', r') :: dict_set k r d'
  end.

(** [d.setdefault(k, dflt)]: the dict after the call and the object it
    returns.  The object is the one stored in the dict under [k]. *)
Definition setdefault (k : string) (dflt : record) (d : data) : data * record :=
  match dict_get k d with
  | Some r => (d, r)
  | None => (dict_set k dflt d, dflt)
  end.

(** [not user_id] for a header, query or body value that is absent or a
    string. *)
Definition missing (user_id : option string) : bool :=
  match user_id with
  | None => true
  | Some s => String.eqb s ""
  end.

End Py.
Import Py.

(** ** The external payment processor *)

(** [stripe.checkout.Session]: only [url] is read by the program. *)
Record Session : Type := { url : string }.

(** [stripe.Customer.create(email=...)] returns a customer id, and
    [stripe.checkout.Session.create(customer=..., ...)] a session; [None]
    stands for a raised exception.  [stripe_state] is whatever the service
    remembers between calls. *)
Record StripeAPI : Type := {
  stripe_state : Type;
  Customer_create : string -> stripe_state -> stripe_state * option string;
  Session_create : value -> stripe_state -> stripe_state * option Session
}.

(** ** The program *)

Definition FREE_LIMIT : Z := 3.

Section App.

Context {api : StripeAPI}.

(** The state the program runs in: the content of [usage.json] ([None]
    while the file does not exist) and the state of the Stripe service. *)
Record world : Type := {
  disk : option data;
  stripe : stripe_state api
}.

Definition M (A : Type) : Type := world -> world * outcome A.

Definition ret {A} (a : A) : M A := fun w => (w, Ret a).

Definition raise {A} (e : exn) : M A := fun w => (w, Raise e).

Definition bind {A B} (m : M A) (k : A -> M B) : M B :=
  fun w =>
    match m w with
    | (w', Ret a) => k a w'
    | (w', Raise e) => (w', Raise e)
    end.

Definition lift {A} (o : outcome A) : M A := fun w => (w, o).

Notation "x <- c ;; k" := (bind c (fun x => k))
  (at level 62, c at next level, right associativity).
Notation "c ;;; k" := (bind c (fun _ => k))
  (at level 62, right associativity).

(** *** Data persistence helpers *)

Definition load_data : M data :=
  fun w =>
    match disk w with
    | None => (w, Ret [])
    | Some d => (w, Ret d)
    end.

Definition save_data (d : data) : M unit :=
  fun w => ({| disk := Some d; stripe := stripe w |}, Ret tt).

Definition default_record : record :=
  <["used" := VInt 0]> (<["subscribed" := VBool false]> ∅).

(** [get_user_record] returns the record object [rec]; that object lives in
    the dict [data] that was loaded for this call, so the model returns the
    dict together with the record.  Nothing is written to the file. *)
Definition get_user_record (user_id : string) : M (data * record) :=
  data <- load_data ;;
  ret (setdefault user_id default_record data).

(** [rec["used"] += amount] changes the object returned by
    [get_user_record], hence the dict it lives in; the dict that is saved is
    a new one, loaded from the file. *)
Definition increment_usage (user_id : string) (amount : Z) : M unit :=
  loaded <- get_user_record user_id ;;
  let '(data, rec) := loaded in
  old <- lift (getitem "used" rec) ;;
  new <- lift (py_add old amount) ;;
  let rec := <["used" := new]> rec in
  let data := dict_set user_id rec data in
  reloaded <- load_data ;;
  save_data reloaded.

Definition mark_subscribed (user_id : string) : M unit :=
  loaded <- get_user_record user_id ;;
  let '(data, rec) := loaded in
  let rec := <["subscribed" := VBool true]> rec in
  let data := dict_set user_id rec data in
  reloaded <- load_data ;;
  save_data reloaded.

(** *** Stripe Checkout helpers *)

Definition stripe_Customer_create (email : string) : M string :=
  fun w =>
    match Customer_create api email (stripe w) with
    | (s, Some id) => ({| disk := disk w; stripe := s |}, Ret id)
    | (s, None) => ({| disk := disk w; stripe := s |}, Raise StripeError)
    end.

Definition stripe_Session_create (customer : value) : M Session :=
  fun w =>
    match Session_create api customer (stripe w) with
    | (s, Some session) => ({| disk := disk w; stripe := s |}, Ret session)
    | (s, None) => ({| disk := disk w; stripe := s |}, Raise StripeError)
    end.

Definition _create_stripe_session (user_id : string) : M Session :=
  data <- load_data ;;
  let '(data, rec) := setdefault user_id ∅ data in
  rec <- match rec !! "stripe_customer_id" with
         | None =>
             cust_id <- stripe_Customer_create user_id ;;
             let rec := <["stripe_customer_id" := VStr cust_id]> rec in
             let data := dict_set user_id rec data in
             save_data data ;;;
             ret rec
         | Some _ => ret rec
         end ;;
  customer <- lift (getitem "stripe_customer_id" rec) ;;
  stripe_Session_create customer.

(** *** Routes *)

Inductive response : Type :=
| JsonError (error : string) (status : Z)
| JsonPaymentRequired (error : string) (checkout_url : string)
| JsonCheckoutUrl (checkout_url : string)
| Redirect (location : string)
| Abort (status : Z)
| Empty200
| SendFile
| InternalServerError (e : exn).

(** [user_id] is [body.get("user_id")] for a request whose body is a JSON
    object, the key being absent or holding a string.  A request without
    JSON body is refused by [request.get_json()] before the handler reads
    anything else, and is not a request of this model. *)
Definition create_checkout_session (user_id : option string) : M response :=
  if missing user_id then ret (JsonError "user_id required" 400)
  else
    session <- _create_stripe_session (default "" user_id) ;;
    ret (JsonCheckoutUrl (url session)).

Definition checkout_redirect (user_id : option string) : M response :=
  if missing user_id then ret (Abort 400)
  else
    session <- _create_stripe_session (default "" user_id) ;;
    ret (Redirect (url session)).

(** The [for] loop of [stripe_webhook]: the first record whose
    [stripe_customer_id] equals [cust] gets [subscribed = True]; [break]. *)
Fixpoint mark_customer (cust : value) (d : data) : data :=
  match d with
  | [] => []
  | (uid, rec) :: d' =>
      if py_eq (rec_get "stripe_customer_id" rec) cust
      then (uid, <["subscribed" := VBool true]> rec) :: d'
      else (uid, rec) :: mark_customer cust d'
  end.

(** [sig_ok]: whether [stripe.Webhook.construct_event] accepts the payload
    and its signature; [event_type] and [cust] are [event["type"]] and
    [event["data"]["object"]["customer"]]. *)
Definition stripe_webhook (sig_ok : bool) (event_type : string) (cust : value)
  : M response :=
  if negb sig_ok then ret (Abort 400)
  else
    (if String.eqb event_type "checkout.session.completed"
     then data <- load_data ;; save_data (mark_customer cust data)
     else ret tt) ;;;
    ret Empty200.

(** The two outcomes of the free-limit test at the head of [upload]. *)
Inductive gate : Type :=
| Allowed
| QuotaExceeded (session : Session).

(** The entitlement check of [upload]: [get_user_record], the free-limit
    test and, when the limit is reached, the checkout session.  [and]
    evaluates [rec["subscribed"]] only when the first test holds. *)
Definition upload_gate (user_id : string) : M gate :=
  loaded <- get_user_record user_id ;;
  let '(_, rec) := loaded in
  used <- lift (getitem "used" rec) ;;
  reached <- lift (py_ge used FREE_LIMIT) ;;
  blocked <- (if reached : bool
              then subscribed <- lift (getitem "subscribed" rec) ;;
                   ret (negb (truthy subscribed))
              else ret false) ;;
  if blocked : bool
  then session <- _create_stripe_session user_id ;; ret (QuotaExceeded session)
  else ret Allowed.

(** [zip_ok]: a file was sent and its name ends with [.zip].  [work]: how
    the handling of the file ends, from saving it to the count test:
    [Some count] with the number of refactored files, or [None] when a step
    raises.  The archive sent back after the usage is recorded is not
    modelled further. *)
Definition upload (user_id : option string) (zip_ok : bool) (work : option nat)
  : M response :=
  if missing user_id then ret (JsonError "Missing User-ID header" 400)
  else
    let user_id := default "" user_id in
    g <- upload_gate user_id ;;
    match g with
    | QuotaExceeded session =>
        ret (JsonPaymentRequired "Free limit reached. Subscribe to continue."
               (url session))
    | Allowed =>
        if negb zip_ok then ret (JsonError "Upload a valid .zip" 400)
        else
          match work with
          | None => raise IOError
          | Some count =>
              if Nat.eqb count 0 then ret (JsonError "No refactor output" 500)
              else increment_usage user_id (Z.of_nat count) ;;; ret SendFile
          end
    end.

(** *** The server *)

Inductive request : Type :=
| PostCreateCheckoutSession (user_id : option string)
| GetCheckout (user_id : option string)
| PostWebhook (sig_ok : bool) (event_type : string) (cust : value)
| PostUpload (user_id : option string) (zip_ok : bool) (work : option nat).

Definition route (r : request) : M response :=
  match r with
  | PostCreateCheckoutSession u => create_checkout_session u
  | GetCheckout u => checkout_redirect u
  | PostWebhook ok ty cust => stripe_webhook ok ty cust
  | PostUpload u zip_ok work => upload u zip_ok work
  end.

(** An exception that leaves a handler is answered with status 500. *)
Definition serve (r : request) (w : world) : world * response :=
  match route r w with
  | (w', Ret resp) => (w', resp)
  | (w', Raise e) => (w', InternalServerError e)
  end.

(** The record set as the program reads it. *)
Definition records (w : world) : data := default [] (disk w).

(** The stored record of a user and its billing account reference. *)
Definition stored (user_id : string) (w : world) : option record :=
  dict_get user_id (records w).

Definition billing (user_id : string) (w : world) : option value :=
  stored user_id w ≫= (.!! "stripe_customer_id").

End App.

Arguments world : clear implicits.
Arguments M : clear implicits.

Arguments Build_world {api} disk stripe.

Definition cid : string := "stripe_customer_id".

(** A run of the server over a list of requests, oldest first. *)
Fixpoint serve_all {api : StripeAPI} (rs : list request) (w : world api)
  : world api :=
  match rs with
  | [] => w
  | r :: rs' => serve_all rs' (fst (serve r w))
  end.

(** One cycle of the scenario: the entitlement check, then the recording of
    [amount] units. *)
Definition check_then_record {api : StripeAPI} (user_id : string) (amount : Z)
  : M api gate :=
  bind (upload_gate user_id) (fun g =>
  bind (increment_usage user_id amount) (fun _ => ret g)).

(** ** A Stripe stand-in for the examples

    Customer ids are ["cus_" ++ email]; every session has the same URL; the
    state counts the calls. *)
Definition stub_stripe : StripeAPI := {|
  stripe_state := nat;
  Customer_create := fun email n => (S n, Some ("cus_" ++ email)%string);
  Session_create := fun _ n =>
    (S n, Some {| url := "https://checkout.stripe.com/c/pay/cs_test" |})
|}.

Definition stub_world (d : option data) : world stub_stripe :=
  @Build_world stub_stripe d O.

(** From [w] to [w'] the record of [user_id], if there is one, is still
    there, and its billing account reference, if set, is the same. *)
Definition kept {api : StripeAPI} (user_id : string) (w w' : world api)
  : Prop :=
  (is_Some (stored user_id w) -> is_Some (stored user_id w'))
  ∧ (∀ v, billing user_id w = Some v -> billing user_id w' = Some v).

(** [cust] is the billing account of no record of [d]. *)
Definition unmatched (cust : value) (d : data) : Prop :=
  ∀ p, p ∈ d -> py_eq (rec_get "stripe_customer_id" p.2) cust = false.

(** A record with both counters, as [get_user_record] lays it out. *)
Definition mk_record (used : Z) (subscribed : bool) : record :=
  <["used" := VInt used]> (<["subscribed" := VBool subscribed]> ∅).

(** Sample files: one user at the free limit, one user with a counter but no
    subscription flag, and two users with billing accounts. *)
Definition at_limit_file : data := [("a@x.com", mk_record 3 false)].

Definition used_only_file : data := [("a@x.com", <["used" := VInt 0]> ∅)].

Definition two_users_file : data :=
  [("a@x.com", <[cid := VStr "cus_a@x.com"]> (mk_record 3 false));
   ("b@x.com", <[cid := VStr "cus_b@x.com"]> (mk_record 1 false))].

(** What the file says about the subscription of a user: the [subscribed]
    field of the stored record, if both are there. *)
Definition flag {api : StripeAPI} (user_id : string) (w : world api)
  : option value :=
  stored user_id w ≫= (.!! "subscribed").

(** The requests that reach the loop of [stripe_webhook]: an accepted
    signature and the event type [checkout.session.completed]. *)
Definition confirms (r : request) : bool :=
  match r with
  | PostWebhook sig_ok event_type _ =>
      sig_ok && String.eqb event_type "checkout.session.completed"
  | _ => false
  end.

(** The user ids of the file, in file order. *)
Definition user_ids {api : StripeAPI} (w : world api) : list string :=
  (records w).*1.

(** A Stripe that is down: every call raises; the state counts the
    calls. *)
Definition down_stripe : StripeAPI := {|
  stripe_state := nat;
  Customer_create := fun _ n => (S n, None);
  Session_create := fun _ n => (S n, None)
|}.

(** ** The files of an upload and their refactoring

    The part of [upload] between the free-limit test and the recording of
    the usage, and [_refactor].  OpenAI is an external service like Stripe:
    one call, which returns the text of the first choice or fails.  The
    archive is given by what [os.walk] finds once it is extracted. *)

(** A Python [str] whose content matters: the list of its code points. *)
Definition text : Type := list N.

Definition text_of_string (s : string) : text :=
  N_of_ascii <$> list_ascii_of_string s.

(** [c.isspace()]: the characters that [str.strip()] removes. *)
Definition isspace (c : N) : bool :=
  ((9 <=? c) && (c <=? 13) || (28 <=? c) && (c <=? 32)
   || (c =? 133) || (c =? 160) || (c =? 5760)
   || (8192 <=? c) && (c <=? 8202)
   || (c =? 8232) || (c =? 8233) || (c =? 8239) || (c =? 8287)
   || (c =? 12288))%N.

Fixpoint lstrip (s : text) : text :=
  match s with
  | [] => []
  | c :: s' => if isspace c then lstrip s' else s
  end.

Fixpoint rstrip (s : text) : text :=
  match s with
  | [] => []
  | c :: s' =>
      match rstrip s' with
      | [] => if isspace c then [] else [c]
      | t => c :: t
      end
  end.

(** [s.strip()] *)
Definition strip (s : text) : text := rstrip (lstrip s).

(** [s.endswith(t)] on file names: some suffix of [s] is [t]. *)
Fixpoint endswith (s t : string) : bool :=
  String.eqb s t
  || match s with
     | EmptyString => false
     | String _ s' => endswith s' t
     end.

(** [s.lower()] on the letters A to Z; any other character is kept, which
    is all the [.zip] test can see. *)
Definition lower_ascii (a : ascii) : ascii :=
  let n := nat_of_ascii a in
  if (65 <=? n)%nat && (n <=? 90)%nat then ascii_of_nat (n + 32) else a.

Fixpoint lower (s : string) : string :=
  match s with
  | EmptyString => EmptyString
  | String a s' => String (lower_ascii a) (lower s')
  end.

(** The test on the uploaded file, on the file name the request carries, if
    any: [not f or not f.filename.lower().endswith(".zip")], negated. *)
Definition is_zip (filename : option string) : bool :=
  match filename with
  | None => false
  | Some name => negb (String.eqb name "") && endswith (lower name) ".zip"
  end.

(** [fn.endswith((".js", ".jsx"))] *)
Definition is_js (fn : string) : bool :=
  endswith fn ".js" || endswith fn ".jsx".

(** [openai.ChatCompletion.create(model=..., messages=...)] followed by
    [resp.choices[0].message.content]: the content, or [None] when any of
    this raises. *)
Record OpenAIAPI : Type := {
  openai_state : Type;
  ChatCompletion_create :
    string -> list (string * text) -> openai_state ->
    openai_state * option text
}.

Definition newline : string := String "010"%char EmptyString.

Definition prompt_head : string :=
  ("Refactor this React code to use modern best practices:" ++ newline
   ++ "- Convert class components to functional components with hooks"
   ++ newline
   ++ "- Simplify props/state" ++ newline
   ++ "- Split large components where sensible" ++ newline ++ newline)%string.

(** The request of [_refactor]: the model and the two messages. *)
Definition refactor_call {ai : OpenAIAPI} (code : text) (o : openai_state ai)
  : openai_state ai * option text :=
  let prompt := text_of_string prompt_head ++ code in
  ChatCompletion_create ai "gpt-3.5-turbo"
    [("system", text_of_string "You are an expert React developer.");
     ("user", prompt)] o.

Definition _refactor {ai : OpenAIAPI} (code : text) (o : openai_state ai)
  : openai_state ai * option text :=
  match refactor_call code o with
  | (o', Some content) => (o', Some (strip content))
  | (o', None) => (o', None)
  end.

(** A text that neither begins nor ends with a whitespace character. *)
Definition trimmed (t : text) : Prop :=
  (∀ c, head t = Some c -> isspace c = false)
  ∧ (∀ c, last t = Some c -> isspace c = false).

(** A text made of whitespace only. *)
Definition blank (t : text) : Prop := Forall (fun c => isspace c = true) t.

(** A file that [os.walk] finds below the job directory: its path relative
    to that directory, its base name, and its content read as UTF-8, [None]
    when opening or decoding it raises. *)
Record walked : Type := {
  rel : string;
  fn : string;
  code : option text
}.

(** The loop over the extracted files: [outs] are the files written so far
    below the result directory, by relative path, and [count] their number.
    [if not new: continue] skips a failed call and an empty answer. *)
Fixpoint refactor_files {ai : OpenAIAPI} (files : list walked)
    (outs : list (string * text)) (count : nat) (o : openai_state ai)
  : openai_state ai * outcome (list (string * text) * nat) :=
  match files with
  | [] => (o, Ret (outs, count))
  | f :: files' =>
      if is_js (fn f) then
        match code f with
        | None => (o, Raise IOError)
        | Some c =>
            match _refactor c o with
            | (o', None) => refactor_files files' outs count o'
            | (o', Some []) => refactor_files files' outs count o'
            | (o', Some new) =>
                refactor_files files' (outs ++ [(rel f, new)]) (S count) o'
            end
        end
      else refactor_files files' outs count o
  end.

(** [upload] with its file handling spelled out: [filename] is the name of
    the uploaded file, if any, and [archive] what extraction leaves on disk,
    [None] when saving or extracting the file raises. *)
Definition upload_archive {api : StripeAPI} {ai : OpenAIAPI}
    (user_id : option string) (filename : option string)
    (archive : option (list walked)) (w : world api) (o : openai_state ai)
  : world api * openai_state ai * outcome response :=
  if missing user_id then (w, o, Ret (JsonError "Missing User-ID header" 400))
  else
    let user_id := default "" user_id in
    match upload_gate user_id w with
    | (w1, Raise e) => (w1, o, Raise e)
    | (w1, Ret (QuotaExceeded session)) =>
        (w1, o,
         Ret (JsonPaymentRequired "Free limit reached. Subscribe to continue."
                (url session)))
    | (w1, Ret Allowed) =>
        if negb (is_zip filename)
        then (w1, o, Ret (JsonError "Upload a valid .zip" 400))
        else
          match archive with
          | None => (w1, o, Raise IOError)
          | Some files =>
              match refactor_files files [] O o with
              | (o1, Raise e) => (w1, o1, Raise e)
              | (o1, Ret (_, count)) =>
                  if Nat.eqb count 0
                  then (w1, o1, Ret (JsonError "No refactor output" 500))
                  else
                    match increment_usage user_id (Z.of_nat count) w1 with
                    | (w2, Raise e) => (w2, o1, Raise e)
                    | (w2, Ret _) => (w2, o1, Ret SendFile)
                    end
              end
          end
    end.

(** What the loop hands to the rest of [upload]: the count, or nothing when
    it raises. *)
Definition work_of {ai : OpenAIAPI} (archive : option (list walked))
    (o : openai_state ai) : option nat :=
  match archive with
  | None => None
  | Some files =>
      match (refactor_files files [] O o).2 with
      | Ret (_, count) => Some count
      | Raise _ => None
      end
  end.

(** An OpenAI stand-in for the examples: it answers with the user message
    between two blanks; the state counts the calls. *)
Definition echo_openai : OpenAIAPI := {|
  openai_state := nat;
  ChatCompletion_create := fun _ messages n =>
    (S n, (fun m => [32%N] ++ m.2 ++ [32%N]) <$> last messages)
|}.

(** A sample archive: a component, a text file that is not valid UTF-8, and
    an empty component. *)
Definition sample_archive : list walked :=
  [ {| rel := "src/App.js"; fn := "App.js"; code := Some [65%N] |};
    {| rel := "README.md"; fn := "README.md"; code := None |};
    {| rel := "src/Nav.jsx"; fn := "Nav.jsx"; code := Some [] |} ].

(** A sample file whose user is over the limit and whose [subscribed] field
    is the string ["false"]. *)
Definition string_flag_file : data :=
  [("a@x.com", <["used" := VInt 5]> (<["subscribed" := VStr "false"]> ∅))].

(** The requests of a user who pays before any upload: the browser
    checkout, then the webhook of the completed checkout for the customer
    that the Stripe stand-in creates. *)
Definition paying_user_requests : list request :=
  [GetCheckout (Some "a@x.com");
   PostWebhook true "checkout.session.completed" (VStr "cus_a@x.com")].

(** ** Lemmas on dicts *)

Section Dict.

Implicit Types (k : string) (r : record) (d : data).

Lemma dict_get_set_eq k r d : dict_get k (dict_set k r d) = Some r.
Proof.
  induction d as [|[k' r'] d IH]; simpl.
  - by rewrite String.eqb_refl.
  - destruct (String.eqb k' k) eqn:E; simpl.
    + by rewrite String.eqb_refl.
    + by rewrite E.
Qed.

Lemma dict_get_set_ne k k' r d :
  k ≠ k' -> dict_get k' (dict_set k r d) = dict_get k' d.
Proof.
  intros Hne. induction d as [|[k0 r0] d IH]; simpl.
  - by apply String.eqb_neq in Hne as ->.
  - destruct (String.eqb k0 k) eqn:E; simpl.
    + apply String.eqb_eq in E as ->.
      by apply String.eqb_neq in Hne as ->.
    + by rewrite IH.
Qed.

Lemma dict_set_set k r r' d : dict_set k r (dict_set k r' d) = dict_set k r d.
Proof.
  induction d as [|[k0 r0] d IH]; simpl.
  - by rewrite String.eqb_refl.
  - destruct (String.eqb k0 k) eqn:E; simpl.
    + by rewrite String.eqb_refl.
    + by rewrite E, IH.
Qed.

(** What [setdefault] leaves in the dict and what it returns. *)
Lemma setdefault_get k dflt d :
  dict_get k (setdefault k dflt d).1 = Some (setdefault k dflt d).2.
Proof.
  unfold setdefault. destruct (dict_get k d) eqn:E; simpl; [done|].
  apply dict_get_set_eq.
Qed.

Lemma setdefault_snd k dflt d :
  (setdefault k dflt d).2 = default dflt (dict_get k d).
Proof. unfold setdefault. by destruct (dict_get k d). Qed.

Lemma setdefault_then_set k dflt r d :
  dict_set k r (setdefault k dflt d).1 = dict_set k r d.
Proof.
  unfold setdefault. destruct (dict_get k d); simpl; [done|].
  apply dict_set_set.
Qed.

End Dict.

(** ** Lemmas on the helpers *)

Section Helpers.

Context {api : StripeAPI}.
Implicit Types (w : world api) (u k : string) (r : record) (d : data).

Lemma load_data_run w : load_data w = (w, Ret (records w)).
Proof. unfold load_data, records. by destruct (disk w). Qed.

Lemma get_user_record_run u w :
  get_user_record u w = (w, Ret (setdefault u default_record (records w))).
Proof. unfold get_user_record, bind. by rewrite load_data_run. Qed.

(** The record handed out by [get_user_record]: the stored one, or the
    default record for a user that has none. *)
Lemma get_user_record_default u w :
  (setdefault u default_record (records w)).2
  = default default_record (stored u w).
Proof. apply setdefault_snd. Qed.

(** [increment_usage] either raises before it writes, or rewrites the file
    with the record set it already holds. *)
Lemma increment_usage_run u n w :
  increment_usage u n w
  = match getitem "used" (default default_record (stored u w)) with
    | Raise e => (w, Raise e)
    | Ret old =>
        match py_add old n with
        | Raise e => (w, Raise e)
        | Ret _ => (Build_world (Some (records w)) (stripe w), Ret tt)
        end
    end.
Proof.
  unfold increment_usage, bind. rewrite get_user_record_run.
  rewrite <- get_user_record_default.
  destruct (setdefault u default_record (records w)) as [d r]; simpl.
  unfold lift. destruct (getitem "used" r); [|done].
  destruct (py_add a n); [|done].
  by rewrite load_data_run.
Qed.

Lemma increment_usage_records u n w :
  records (increment_usage u n w).1 = records w.
Proof.
  rewrite increment_usage_run.
  destruct (getitem _ _); [|done]. by destruct (py_add _ _).
Qed.

(** [_create_stripe_session], case by case. *)
Lemma create_session_run u w :
  _create_stripe_session u w
  = let rec := default ∅ (stored u w) in
    match rec !! cid with
    | Some customer => stripe_Session_create customer w
    | None =>
        match Customer_create api u (stripe w) with
        | (s, None) => (Build_world (disk w) s, Raise StripeError)
        | (s, Some id) =>
            stripe_Session_create (VStr id)
              (Build_world
                 (Some (dict_set u (<[cid := VStr id]> rec) (records w))) s)
        end
    end.
Proof.
  unfold _create_stripe_session, bind. rewrite load_data_run.
  pose proof (setdefault_snd u ∅ (records w)) as Hsnd.
  pose proof (setdefault_then_set u ∅) as Hset.
  destruct (setdefault u ∅ (records w)) as [d r] eqn:E; simpl in *.
  fold (stored u w) in Hsnd. subst r. fold cid.
  destruct (default ∅ (stored u w) !! cid) as [v|] eqn:Hc.
  - unfold ret, lift, getitem. fold cid. by rewrite Hc.
  - unfold stripe_Customer_create at 1.
    destruct (Customer_create api u (stripe w)) as [s [id|]]; [|done].
    unfold save_data, ret, lift, getitem; simpl.
    rewrite lookup_insert_eq.
    specialize (Hset (<[cid:=VStr id]> (default ∅ (stored u w))) (records w)).
    rewrite E in Hset. simpl in Hset. by rewrite Hset.
Qed.

Lemma Session_create_disk c w : disk (stripe_Session_create c w).1 = disk w.
Proof.
  unfold stripe_Session_create.
  by destruct (Session_create api c (stripe w)) as [s [x|]].
Qed.

(** The only write of [_create_stripe_session]: a fresh customer id put in
    the record of [u], when that record holds none. *)
Lemma create_session_disk u w :
  disk (_create_stripe_session u w).1 = disk w
  ∨ ∃ id, default ∅ (stored u w) !! cid = None
        ∧ disk (_create_stripe_session u w).1
          = Some (dict_set u (<[cid := VStr id]> (default ∅ (stored u w)))
                    (records w)).
Proof.
  rewrite create_session_run. simpl.
  destruct (default ∅ (stored u w) !! cid) as [v|] eqn:Hc.
  - left. apply Session_create_disk.
  - destruct (Customer_create api u (stripe w)) as [s [id|]]; [|by left].
    right. exists id. split; [done|]. by rewrite Session_create_disk.
Qed.

End Helpers.

(** ** The entitlement gate *)

Section Gate.

Context {api : StripeAPI}.
Implicit Types (w : world api) (u k : string) (r : record) (d : data).

(** The entitlement check, case by case, on the record that
    [get_user_record] hands out. *)
Lemma upload_gate_run u w :
  upload_gate u w
  = let rec := default default_record (stored u w) in
    match getitem "used" rec with
    | Raise e => (w, Raise e)
    | Ret used =>
        match py_ge used FREE_LIMIT with
        | Raise e => (w, Raise e)
        | Ret false => (w, Ret Allowed)
        | Ret true =>
            match getitem "subscribed" rec with
            | Raise e => (w, Raise e)
            | Ret subscribed =>
                if truthy subscribed then (w, Ret Allowed)
                else
                  match _create_stripe_session u w with
                  | (w', Ret session) => (w', Ret (QuotaExceeded session))
                  | (w', Raise e) => (w', Raise e)
                  end
            end
        end
    end.
Proof.
  unfold upload_gate, bind. rewrite get_user_record_run.
  rewrite <- get_user_record_default.
  destruct (setdefault u default_record (records w)) as [d r]; simpl.
  unfold lift. destruct (getitem "used" r) as [used|]; [|done].
  destruct (py_ge used FREE_LIMIT) as [[]|]; [|done|done].
  destruct (getitem "subscribed" r) as [s|]; [|done].
  unfold ret; simpl. destruct (truthy s); simpl; [done|].
  by destruct (_create_stripe_session u w) as [w' [x|e]].
Qed.

Lemma default_record_used : default_record !! "used" = Some (VInt 0).
Proof. reflexivity. Qed.

(** When the gate returns [Allowed] or raises on a lookup, nothing was
    written; otherwise the world is the one [_create_stripe_session]
    leaves. *)
Lemma upload_gate_world u w :
  (upload_gate u w).1 = w
  ∨ (upload_gate u w).1 = (_create_stripe_session u w).1
    ∧ (upload_gate u w).2 ≠ Ret Allowed
    ∧ ∃ rec, stored u w = Some rec.
Proof.
  rewrite upload_gate_run. simpl.
  destruct (getitem "used" _) as [used|] eqn:Hu; [|by left].
  destruct (py_ge used FREE_LIMIT) as [[]|] eqn:Hge; [|by left|by left].
  destruct (getitem "subscribed" _) as [s|]; [|by left].
  destruct (truthy s); [by left|].
  right. split; [|split].
  - by destruct (_create_stripe_session u w) as [w' [x|e]].
  - by destruct (_create_stripe_session u w) as [w' [x|e]].
  - destruct (stored u w) as [rec|]; [by exists rec|].
    simpl in Hu. unfold getitem in Hu. rewrite default_record_used in Hu.
    injection Hu as <-. discriminate Hge.
Qed.

End Gate.

(** ** Recording usage *)

Section Usage.

Context {api : StripeAPI}.

(** C1 (as the code runs it): on a file in which ["a@x.com"] has
    [used = 0], [increment_usage "a@x.com" 1] returns normally and rewrites
    the file with the very record set it held, and the read that follows
    still finds [used = 0], not [1]: the incremented record belongs to a
    dict that is dropped, and the dict that is saved is loaded afresh.  For
    every file, user and amount the record set after the call is the one
    before it. *)
Theorem increment_usage_drops_increment (s : stripe_state api) :
  increment_usage "a@x.com" 1
    (Build_world (Some [("a@x.com", mk_record 0 false)]) s)
  = (Build_world (Some [("a@x.com", mk_record 0 false)]) s, Ret tt)
  ∧ get_user_record "a@x.com"
      (Build_world (Some [("a@x.com", mk_record 0 false)]) s)
    = (Build_world (Some [("a@x.com", mk_record 0 false)]) s,
       Ret ([("a@x.com", mk_record 0 false)], mk_record 0 false))
  ∧ mk_record 0 false !! "used" = Some (VInt 0)
  ∧ (∀ (w : world api) u n, records (increment_usage u n w).1 = records w).
Proof.
  split; [|split; [|split]]; try reflexivity.
  intros w u n. apply increment_usage_records.
Qed.

(** C3 (as the code runs it): from an absent file, three cycles of
    entitlement check and recording of one unit are each [Allowed], but they
    leave a file with no record at all, so that ["a@x.com"] still reads as
    [used = 0] and the fourth check is [Allowed] too. *)
Theorem three_cycles_leave_quota_untouched (s : stripe_state api) :
  let u := "a@x.com" in
  let c1 := check_then_record u 1 (Build_world None s) in
  let c2 := check_then_record u 1 c1.1 in
  let c3 := check_then_record u 1 c2.1 in
  c1.2 = Ret Allowed ∧ c2.2 = Ret Allowed ∧ c3.2 = Ret Allowed
  ∧ c3.1 = Build_world (Some []) s
  ∧ get_user_record u c3.1 = (c3.1, Ret ([(u, default_record)], default_record))
  ∧ upload_gate u c3.1 = (c3.1, Ret Allowed).
Proof. repeat split; reflexivity. Qed.

(** C9: an upload without a [User-ID] header, or with an empty one, is
    answered with status 400 at once, whatever else the request carries, and
    the world (file and Stripe) is the one it started from. *)
Theorem upload_without_identity (w : world api) (zip_ok : bool)
    (work : option nat) :
  serve (PostUpload None zip_ok work) w
  = (w, JsonError "Missing User-ID header" 400)
  ∧ serve (PostUpload (Some "") zip_ok work) w
    = (w, JsonError "Missing User-ID header" 400).
Proof. split; reflexivity. Qed.

End Usage.

(** ** The decision of the entitlement gate *)

Section Decision.

Context {api : StripeAPI}.
Implicit Types (w : world api) (u k : string) (r : record) (d : data).

Lemma Session_create_returns c w :
  (∀ c s, ∃ s' session,
      Session_create api c s = (s', Some session) ∧ url session ≠ "") ->
  ∃ w' session,
    stripe_Session_create c w = (w', Ret session) ∧ url session ≠ "".
Proof.
  intros Hs. destruct (Hs c (stripe w)) as (s' & session & E & Hurl).
  unfold stripe_Session_create. rewrite E. by eexists _, _.
Qed.

Lemma create_session_returns u w :
  (∀ email s, ∃ s' id, Customer_create api email s = (s', Some id)) ->
  (∀ c s, ∃ s' session,
      Session_create api c s = (s', Some session) ∧ url session ≠ "") ->
  ∃ w' session,
    _create_stripe_session u w = (w', Ret session) ∧ url session ≠ "".
Proof.
  intros Hc Hs. rewrite create_session_run. simpl.
  destruct (default ∅ (stored u w) !! cid) as [v|].
  - by apply Session_create_returns.
  - destruct (Hc u (stripe w)) as (s' & id & ->).
    by apply Session_create_returns.
Qed.

(** On records that hold both fields: let [rec] be the record that
    [get_user_record] reads for the user, with an integer [used] and a
    boolean [subscribed].  If
    [used >= FREE_LIMIT] and [subscribed] is false, the entitlement check
    returns [QuotaExceeded] with the checkout session Stripe created, whose
    URL is not empty as soon as Stripe answers its calls with non-empty
    URLs; in every other case it returns [Allowed] and leaves the world as
    it was. *)
Theorem upload_gate_decision (w : world api) (user_id : string) (data : data)
    (rec : record) (used : Z) (subscribed : bool) :
  get_user_record user_id w = (w, Ret (data, rec)) ->
  rec !! "used" = Some (VInt used) ->
  rec !! "subscribed" = Some (VBool subscribed) ->
  (FREE_LIMIT <= used ∧ subscribed = false ->
   (∀ email s, ∃ s' id, Customer_create api email s = (s', Some id)) ->
   (∀ c s, ∃ s' session,
       Session_create api c s = (s', Some session) ∧ url session ≠ "") ->
   ∃ w' session,
     upload_gate user_id w = (w', Ret (QuotaExceeded session))
     ∧ url session ≠ "")
  ∧ (used < FREE_LIMIT ∨ subscribed = true ->
     upload_gate user_id w = (w, Ret Allowed)).
Proof.
  intros Hget Hu Hs. rewrite get_user_record_run in Hget.
  assert (default default_record (stored user_id w) = rec) as Hrec.
  { rewrite <- get_user_record_default. injection Hget as Hget.
    by rewrite Hget. }
  rewrite upload_gate_run. simpl. rewrite Hrec.
  unfold getitem. rewrite Hu, Hs. unfold py_ge. simpl. split.
  - intros [Hge ->] Hc Hsess.
    apply Z.leb_le in Hge as ->. simpl.
    destruct (create_session_returns user_id w Hc Hsess)
      as (w' & session & -> & Hurl).
    by exists w', session.
  - intros [Hlt | ->].
    + by apply Z.leb_gt in Hlt as ->.
    + simpl. by destruct (FREE_LIMIT <=? used).
Qed.

End Decision.

(** The decision at the sample file whose user stands at the limit. *)
Lemma upload_gate_decision_witness :
  (∃ w' session,
      upload_gate "a@x.com" (stub_world (Some at_limit_file))
      = (w', Ret (QuotaExceeded session))
      ∧ url session ≠ "")
  ∧ upload_gate "b@x.com" (stub_world (Some at_limit_file))
    = (stub_world (Some at_limit_file), Ret Allowed).
Proof.
  split.
  - apply (proj1 (upload_gate_decision (stub_world (Some at_limit_file))
                    "a@x.com" at_limit_file (mk_record 3 false) 3 false
                    eq_refl eq_refl eq_refl)).
    + split; [unfold FREE_LIMIT; lia | reflexivity].
    + intros email s. by exists (S s), ("cus_" ++ email)%string.
    + intros c s. eexists _, _. split; [reflexivity | discriminate].
  - apply (proj2 (upload_gate_decision (stub_world (Some at_limit_file))
                    "b@x.com" _ default_record 0 false
                    eq_refl eq_refl eq_refl)).
    left. unfold FREE_LIMIT. lia.
Defined.

(** ** What the entitlement gate writes, and where it fails *)

Section Frame.

Context {api : StripeAPI}.
Implicit Types (w : world api) (u k : string) (r : record) (d : data).

Lemma stored_same_disk u w w' : disk w' = disk w -> stored u w' = stored u w.
Proof. unfold stored, records. by intros ->. Qed.

Lemma stored_after_set u u' r d w' :
  disk w' = Some (dict_set u r d) ->
  stored u' w' = if String.eqb u u' then Some r else dict_get u' d.
Proof.
  unfold stored, records. intros ->. simpl.
  destruct (String.eqb_spec u u') as [<-|Hne].
  - apply dict_get_set_eq.
  - by apply dict_get_set_ne.
Qed.

(** C4, amended: the entitlement check never changes the record of another
    user, nor any field of the caller's record other than
    [stripe_customer_id]; when it returns [Allowed] the whole world is
    unchanged; and when it writes, the caller has a stored record without
    billing account, which comes back with a customer id added and nothing
    else changed. *)
Theorem upload_gate_frame (w : world api) (u : string) :
  ((upload_gate u w).2 = Ret Allowed -> (upload_gate u w).1 = w)
  ∧ (∀ u', u' ≠ u -> stored u' (upload_gate u w).1 = stored u' w)
  ∧ (∀ k, k ≠ "stripe_customer_id" ->
        stored u (upload_gate u w).1 ≫= (.!! k) = stored u w ≫= (.!! k))
  ∧ (disk (upload_gate u w).1 = disk w
     ∨ ∃ rec id,
         stored u w = Some rec
         ∧ rec !! "stripe_customer_id" = None
         ∧ stored u (upload_gate u w).1
           = Some (<["stripe_customer_id" := VStr id]> rec)).
Proof.
  destruct (upload_gate_world u w) as [E | (E & Hres & rec & Hrec)].
  { rewrite E. repeat split; auto. }
  split; [done|]. rewrite E.
  destruct (create_session_disk u w) as [Hd | (id & Hnone & Hd)].
  { repeat split; intros; auto using stored_same_disk.
    by rewrite (stored_same_disk u _ _ Hd). }
  rewrite Hrec in Hnone, Hd. simpl in Hnone, Hd.
  split; [|split].
  - intros u' Hne. rewrite (stored_after_set _ u' _ _ _ Hd).
    apply not_eq_sym, String.eqb_neq in Hne. by rewrite Hne.
  - intros k Hk. rewrite (stored_after_set _ u _ _ _ Hd).
    rewrite String.eqb_refl, Hrec. simpl.
    apply lookup_insert_ne. by intros <-.
  - right. exists rec, id. split; [done|]. split; [done|].
    rewrite (stored_after_set _ u _ _ _ Hd). by rewrite String.eqb_refl.
Qed.

(** The record the checkout helper creates for an unknown user holds the
    customer id and nothing else. *)
Lemma create_session_unseen w u id (s : stripe_state api) :
  stored u w = None ->
  Customer_create api u (stripe w) = (s, Some id) ->
  stored u (_create_stripe_session u w).1
  = Some {[ "stripe_customer_id" := VStr id ]}.
Proof.
  intros Hnone Hc.
  rewrite create_session_run, Hnone, Hc. simpl. rewrite lookup_empty.
  erewrite stored_after_set; [|by rewrite Session_create_disk].
  rewrite String.eqb_refl. by rewrite insert_empty.
Qed.

(** C10, amended: the entitlement check reads [rec["used"]] always and
    [rec["subscribed"]] only once [used] has reached the limit.  On a stored
    record without ["used"] it raises [KeyError]; with an integer [used]
    under the limit it is [Allowed] whether or not ["subscribed"] is there;
    with [used] at the limit and no ["subscribed"] it raises [KeyError].  In
    particular, once the checkout helper has created the record of an
    unknown user, which holds the customer id only, the next entitlement
    check of that user raises [KeyError] on ["used"]. *)
Theorem upload_gate_key_errors :
  (∀ w u rec,
      stored u w = Some rec ->
      (rec !! "used" = None -> upload_gate u w = (w, Raise (KeyError "used")))
      ∧ (∀ n, rec !! "used" = Some (VInt n) -> n < FREE_LIMIT ->
              upload_gate u w = (w, Ret Allowed))
      ∧ (∀ n, rec !! "used" = Some (VInt n) -> FREE_LIMIT <= n ->
              rec !! "subscribed" = None ->
              upload_gate u w = (w, Raise (KeyError "subscribed"))))
  ∧ (∀ w u id s,
        stored u w = None ->
        Customer_create api u (stripe w) = (s, Some id) ->
        stored u (_create_stripe_session u w).1
        = Some {[ "stripe_customer_id" := VStr id ]}
        ∧ upload_gate u (_create_stripe_session u w).1
          = ((_create_stripe_session u w).1, Raise (KeyError "used"))).
Proof.
  assert (∀ w u rec,
             stored u w = Some rec -> rec !! "used" = None ->
             upload_gate u w = (w, Raise (KeyError "used"))) as Hused.
  { intros w u rec Hrec Hu. rewrite upload_gate_run, Hrec. simpl.
    unfold getitem. by rewrite Hu. }
  split.
  - intros w u rec Hrec. split; [by apply Hused|]. split.
    + intros n Hu Hlt. rewrite upload_gate_run, Hrec. simpl.
      unfold getitem. rewrite Hu. unfold py_ge. simpl.
      by apply Z.leb_gt in Hlt as ->.
    + intros n Hu Hge Hs. rewrite upload_gate_run, Hrec. simpl.
      unfold getitem. rewrite Hu, Hs. unfold py_ge. simpl.
      by apply Z.leb_le in Hge as ->.
  - intros w u id s Hnone Hc.
    pose proof (create_session_unseen w u id s Hnone Hc) as Hst.
    split; [done|]. by apply (Hused _ _ _ Hst).
Qed.

End Frame.

(** C4, as stated, fails: on the sample file whose user stands at the limit
    with no billing account, the entitlement check alone is answered
    [QuotaExceeded] and leaves a stored record that differs from the one it
    found. *)
Lemma upload_gate_writes_customer_id :
  stored "a@x.com" (stub_world (Some at_limit_file)) = Some (mk_record 3 false)
  ∧ (upload_gate "a@x.com" (stub_world (Some at_limit_file))).2
    = Ret (QuotaExceeded {| url := "https://checkout.stripe.com/c/pay/cs_test" |})
  ∧ stored "a@x.com" (upload_gate "a@x.com" (stub_world (Some at_limit_file))).1
    = Some (<[cid := VStr "cus_a@x.com"]> (mk_record 3 false))
  ∧ <[cid := VStr "cus_a@x.com"]> (mk_record 3 false) ≠ mk_record 3 false.
Proof.
  split; [reflexivity|]. split; [reflexivity|]. split; [reflexivity|].
  intros E. apply (f_equal (.!! cid)) in E. discriminate E.
Qed.

(** C10, as stated, fails: on the sample file whose record holds ["used"]
    only, the entitlement check is [Allowed] although the record has no
    ["subscribed"]. *)
Lemma upload_gate_skips_subscribed :
  stored "a@x.com" (stub_world (Some used_only_file))
  = Some (<["used" := VInt 0]> ∅)
  ∧ (<["used" := VInt 0]> ∅ : record) !! "subscribed" = None
  ∧ upload_gate "a@x.com" (stub_world (Some used_only_file))
    = (stub_world (Some used_only_file), Ret Allowed).
Proof. repeat split; reflexivity. Qed.

(** C10, amended, at the sample files and after a first checkout of an
    unknown user. *)
Lemma upload_gate_key_errors_witness :
  upload_gate "a@x.com" (stub_world (Some used_only_file))
  = (stub_world (Some used_only_file), Ret Allowed)
  ∧ upload_gate "a@x.com" (_create_stripe_session "a@x.com" (stub_world None)).1
    = ((_create_stripe_session "a@x.com" (stub_world None)).1,
       Raise (KeyError "used")).
Proof.
  split.
  - apply (proj1 (proj2 (proj1 (@upload_gate_key_errors stub_stripe)
       (stub_world (Some used_only_file)) "a@x.com" _ eq_refl)) 0 eq_refl).
    unfold FREE_LIMIT. lia.
  - apply (proj2 (proj2 (@upload_gate_key_errors stub_stripe)
       (stub_world None) "a@x.com" "cus_a@x.com" 1%nat eq_refl eq_refl)).
Defined.

(** ** The webhook *)

Section Webhook.

Context {api : StripeAPI}.
Implicit Types (w : world api) (u k : string) (r : record) (d : data).

Lemma mark_customer_unmatched cust d :
  unmatched cust d -> mark_customer cust d = d.
Proof.
  unfold unmatched. induction d as [|[uid rec] d IH]; intros H; simpl; [done|].
  pose proof (H (uid, rec) (list_elem_of_here _ _)) as Hh. simpl in Hh.
  rewrite Hh, IH; [done|]. intros p Hp. apply H. by apply list_elem_of_further.
Qed.

(** The loop stops at the first match and changes that record only. *)
Lemma mark_customer_first cust before uid rec after :
  unmatched cust before ->
  py_eq (rec_get "stripe_customer_id" rec) cust = true ->
  mark_customer cust (before ++ (uid, rec) :: after)
  = before ++ (uid, <["subscribed" := VBool true]> rec) :: after.
Proof.
  unfold unmatched. intros Hb Hm.
  induction before as [|[uid' rec'] before IH]; simpl.
  - by rewrite Hm.
  - pose proof (Hb (uid', rec') (list_elem_of_here _ _)) as Hh. simpl in Hh.
    rewrite Hh, IH; [done|]. intros p Hp. apply Hb.
    by apply list_elem_of_further.
Qed.

(** Whatever the loop does, it touches the field [subscribed] only. *)
Lemma mark_customer_fields cust d u k :
  k ≠ "subscribed" ->
  dict_get u (mark_customer cust d) ≫= (.!! k) = dict_get u d ≫= (.!! k).
Proof.
  intros Hk. induction d as [|[uid rec] d IH]; simpl; [done|].
  destruct (py_eq _ cust); simpl.
  - destruct (String.eqb uid u); [|done]. simpl.
    apply lookup_insert_ne. by intros <-.
  - by destruct (String.eqb uid u).
Qed.

Lemma stripe_webhook_run sig_ok event_type cust w :
  stripe_webhook sig_ok event_type cust w
  = if negb sig_ok then (w, Ret (Abort 400))
    else if String.eqb event_type "checkout.session.completed"
         then (Build_world (Some (mark_customer cust (records w))) (stripe w),
               Ret Empty200)
         else (w, Ret Empty200).
Proof.
  unfold stripe_webhook. destruct sig_ok; simpl; [|done].
  unfold bind. destruct (String.eqb event_type _); [|done].
  by rewrite load_data_run.
Qed.

(** C7: when exactly one record of the file has the confirmed customer as
    its [stripe_customer_id], the [checkout.session.completed] webhook is
    answered with an empty 200 and saves the same file, record for record
    and in the same order, except that the matched record has
    [subscribed = True]; the other fields of that record are as before. *)
Theorem webhook_marks_the_match (w : world api) (cust : value) (uid : string)
    (rec : record) (before after : data) :
  records w = before ++ (uid, rec) :: after ->
  py_eq (rec_get "stripe_customer_id" rec) cust = true ->
  unmatched cust (before ++ after) ->
  serve (PostWebhook true "checkout.session.completed" cust) w
  = (Build_world
       (Some (before ++ (uid, <["subscribed" := VBool true]> rec) :: after))
       (stripe w),
     Empty200)
  ∧ <["subscribed" := VBool true]> rec !! "subscribed" = Some (VBool true)
  ∧ (∀ k, k ≠ "subscribed" ->
          <["subscribed" := VBool true]> rec !! k = rec !! k).
Proof.
  intros Hw Hm Hun. split; [|split].
  - unfold serve, route. rewrite stripe_webhook_run. simpl. rewrite Hw.
    rewrite mark_customer_first; [done| |done].
    intros p Hp. apply Hun. apply elem_of_app. by left.
  - apply lookup_insert_eq.
  - intros k Hk. by apply lookup_insert_ne.
Qed.

(** C8: when no record of the file has the confirmed customer as its
    [stripe_customer_id], the webhook, whatever the event type, is answered
    with an empty 200, and the record set and the Stripe state are what they
    were. *)
Theorem webhook_unmatched_is_noop (w : world api) (event_type : string)
    (cust : value) :
  unmatched cust (records w) ->
  (serve (PostWebhook true event_type cust) w).2 = Empty200
  ∧ records (serve (PostWebhook true event_type cust) w).1 = records w
  ∧ stripe (serve (PostWebhook true event_type cust) w).1 = stripe w.
Proof.
  intros Hun. unfold serve, route. rewrite stripe_webhook_run. simpl.
  destruct (String.eqb event_type _); simpl; [|done].
  by rewrite mark_customer_unmatched.
Qed.

End Webhook.

(** C7, at the sample file with two billing accounts: the first is
    confirmed. *)
Lemma webhook_marks_the_match_witness :
  serve (PostWebhook true "checkout.session.completed" (VStr "cus_a@x.com"))
    (stub_world (Some two_users_file))
  = (stub_world
       (Some [("a@x.com", <[cid := VStr "cus_a@x.com"]> (mk_record 3 true));
              ("b@x.com", <[cid := VStr "cus_b@x.com"]> (mk_record 1 false))]),
     Empty200).
Proof.
  apply (proj1 (webhook_marks_the_match (stub_world (Some two_users_file))
                  (VStr "cus_a@x.com") "a@x.com"
                  (<[cid := VStr "cus_a@x.com"]> (mk_record 3 false)) []
                  [("b@x.com", <[cid := VStr "cus_b@x.com"]> (mk_record 1 false))]
                  eq_refl eq_refl
                  ltac:(intros p Hp; apply list_elem_of_singleton in Hp;
                        rewrite Hp; reflexivity))).
Defined.

(** C8, at the sample file with two billing accounts: a third is
    confirmed. *)
Lemma webhook_unmatched_is_noop_witness :
  (serve (PostWebhook true "checkout.session.completed" (VStr "cus_c@x.com"))
     (stub_world (Some two_users_file))).2 = Empty200
  ∧ records
      (serve (PostWebhook true "checkout.session.completed" (VStr "cus_c@x.com"))
         (stub_world (Some two_users_file))).1
    = two_users_file
  ∧ stripe
      (serve (PostWebhook true "checkout.session.completed" (VStr "cus_c@x.com"))
         (stub_world (Some two_users_file))).1
    = O.
Proof.
  apply (webhook_unmatched_is_noop (stub_world (Some two_users_file))).
  intros p Hp. unfold records, two_users_file in Hp. simpl in Hp.
  apply elem_of_cons in Hp as [-> | Hp]; [reflexivity|].
  apply list_elem_of_singleton in Hp as ->. reflexivity.
Defined.

(** ** What no request takes away *)

Section Kept.

Context {api : StripeAPI}.
Implicit Types (w : world api) (u k : string) (r : record) (d : data).

Lemma kept_refl u w : kept u w w.
Proof. by split. Qed.

Lemma kept_trans u w1 w2 w3 : kept u w1 w2 -> kept u w2 w3 -> kept u w1 w3.
Proof. intros [Ha Hb] [Ha' Hb']. split; auto. Qed.

Lemma kept_same_records u w w' : records w' = records w -> kept u w w'.
Proof. unfold kept, billing, stored. by intros ->. Qed.

Lemma kept_same_disk u w w' : disk w' = disk w -> kept u w w'.
Proof. intros H. apply kept_same_records. unfold records. by rewrite H. Qed.

(** The checkout helper adds a record or a customer id where there is
    none. *)
Lemma create_session_kept u' u w : kept u w (_create_stripe_session u' w).1.
Proof.
  destruct (create_session_disk u' w) as [Hd | (id & Hnone & Hd)].
  { by apply kept_same_disk. }
  unfold kept, billing. rewrite (stored_after_set _ u _ _ _ Hd).
  destruct (String.eqb_spec u' u) as [->|Hne]; [|done].
  split; [by eauto|]. intros v.
  destruct (stored u w) as [rec|]; [|done]. simpl in *.
  unfold cid in Hnone. congruence.
Qed.

Lemma upload_gate_kept u' u w : kept u w (upload_gate u' w).1.
Proof.
  destruct (upload_gate_world u' w) as [-> | (-> & _)].
  - apply kept_refl.
  - apply create_session_kept.
Qed.

Lemma increment_usage_kept u' n u w : kept u w (increment_usage u' n w).1.
Proof. apply kept_same_records, increment_usage_records. Qed.

(** [mark_subscribed], which no route calls, saves a fresh load as well. *)
Lemma mark_subscribed_kept u' u w : kept u w (mark_subscribed u' w).1.
Proof.
  apply kept_same_records. unfold mark_subscribed, bind.
  rewrite get_user_record_run.
  destruct (setdefault u' default_record (records w)) as [d r].
  by rewrite load_data_run.
Qed.

Lemma mark_customer_keys cust d u :
  is_Some (dict_get u d) -> is_Some (dict_get u (mark_customer cust d)).
Proof.
  induction d as [|[uid rec] d IH]; simpl; [done|].
  destruct (py_eq _ cust); simpl.
  - destruct (String.eqb uid u); eauto.
  - destruct (String.eqb uid u); eauto.
Qed.

Lemma stripe_webhook_kept sig_ok event_type cust u w :
  kept u w (stripe_webhook sig_ok event_type cust w).1.
Proof.
  rewrite stripe_webhook_run.
  destruct (negb sig_ok); [apply kept_refl|].
  destruct (String.eqb event_type _); [|apply kept_refl].
  unfold kept, billing, stored, records. simpl. split.
  - apply mark_customer_keys.
  - intros v <-. by apply mark_customer_fields.
Qed.

Lemma upload_kept user_id zip_ok work u w :
  kept u w (upload user_id zip_ok work w).1.
Proof.
  unfold upload. destruct (missing user_id); [apply kept_refl|].
  unfold bind.
  pose proof (upload_gate_kept (default "" user_id) u w) as Hg.
  destruct (upload_gate (default "" user_id) w) as [w1 [[|session]|e]];
    simpl in Hg; [|done|done].
  destruct (negb zip_ok); [done|].
  destruct work as [count|]; [|done].
  destruct (Nat.eqb count 0); [done|].
  pose proof (increment_usage_kept (default "" user_id) (Z.of_nat count) u w1)
    as Hi.
  destruct (increment_usage _ _ w1) as [w2 [[]|e]]; simpl in *;
    by apply (kept_trans u w w1 w2).
Qed.

Lemma checkout_kept (wrap : Session -> response) (no_id : response)
    user_id u w :
  kept u w
    ((if missing user_id then ret no_id
      else bind (_create_stripe_session (default "" user_id))
             (fun session => ret (wrap session))) w).1.
Proof.
  destruct (missing user_id); [apply kept_refl|]. unfold bind.
  pose proof (create_session_kept (default "" user_id) u w) as Hc.
  by destruct (_create_stripe_session _ w) as [w1 [session|e]].
Qed.

(** No request deletes a record or changes a billing account reference
    that is set. *)
Lemma serve_kept req u w : kept u w (serve req w).1.
Proof.
  assert (kept u w (route req w).1) as Hr.
  { destruct req as [user_id|user_id|sig_ok ty cust|user_id zip_ok work]; simpl.
    - apply (checkout_kept (fun s => JsonCheckoutUrl (url s))).
    - apply (checkout_kept (fun s => Redirect (url s))).
    - apply stripe_webhook_kept.
    - apply upload_kept. }
  unfold serve. by destruct (route req w) as [w1 [resp|e]].
Qed.

Lemma serve_all_kept reqs u w : kept u w (serve_all reqs w).
Proof.
  revert w. induction reqs as [|req reqs IH]; intros w; simpl.
  - apply kept_refl.
  - eapply kept_trans; [apply serve_kept | apply IH].
Qed.

(** C6: for a user the file does not know, and a Stripe that answers the
    first customer creation with [id], the file holds [id] as the user's
    [stripe_customer_id] after a first call of the checkout helper and
    still holds [id] after a second call; and for every user, a reference
    that is set stays what it is through any sequence of requests. *)
Theorem billing_account_assigned_once (w : world api) (u id : string)
    (s : stripe_state api) :
  stored u w = None ->
  Customer_create api u (stripe w) = (s, Some id) ->
  billing u (_create_stripe_session u w).1 = Some (VStr id)
  ∧ billing u (_create_stripe_session u (_create_stripe_session u w).1).1
    = Some (VStr id)
  ∧ (∀ (w' : world api) u' v reqs,
        billing u' w' = Some v -> billing u' (serve_all reqs w') = Some v).
Proof.
  intros Hnone Hc.
  assert (billing u (_create_stripe_session u w).1 = Some (VStr id)) as H1.
  { unfold billing.
    rewrite (create_session_unseen w u id s Hnone Hc).
    simpl. apply lookup_singleton_eq. }
  split; [done|]. split.
  - by apply create_session_kept.
  - intros w' u' v reqs. apply serve_all_kept.
Qed.

End Kept.

(** C6, for ["a@x.com"] on an absent file. *)
Lemma billing_account_assigned_once_witness :
  billing "a@x.com" (_create_stripe_session "a@x.com" (stub_world None)).1
  = Some (VStr "cus_a@x.com")
  ∧ billing "a@x.com"
      (_create_stripe_session "a@x.com"
         (_create_stripe_session "a@x.com" (stub_world None)).1).1
    = Some (VStr "cus_a@x.com").
Proof.
  destruct (billing_account_assigned_once (stub_world None) "a@x.com"
              "cus_a@x.com" 1%nat eq_refl eq_refl) as (H1 & H2 & _).
  exact (conj H1 H2).
Defined.

(** C5 (as the code runs it): for a user the file does not know, the
    entitlement check is [Allowed] and writes nothing, a whole successful
    upload leaves a file without a record for the user, and the checkout
    helper stores a record that holds the customer id only, with neither
    [used] nor [subscribed].  What does hold is that a record, once in the
    file, is still there after any sequence of requests. *)
Theorem unseen_user_gets_no_default_record :
  upload_gate "a@x.com" (stub_world None) = (stub_world None, Ret Allowed)
  ∧ (serve (PostUpload (Some "a@x.com") true (Some 1%nat)) (stub_world None)).2
    = SendFile
  ∧ stored "a@x.com"
      (serve (PostUpload (Some "a@x.com") true (Some 1%nat)) (stub_world None)).1
    = None
  ∧ stored "a@x.com" (_create_stripe_session "a@x.com" (stub_world None)).1
    = Some {[ cid := VStr "cus_a@x.com" ]}
  ∧ ({[ cid := VStr "cus_a@x.com" ]} : record) !! "used" = None
  ∧ ({[ cid := VStr "cus_a@x.com" ]} : record) !! "subscribed" = None
  ∧ (∀ (api : StripeAPI) (w : world api) u reqs,
        is_Some (stored u w) -> is_Some (stored u (serve_all reqs w))).
Proof.
  repeat split; try reflexivity.
  intros api w u reqs. apply serve_all_kept.
Qed.

(** ** More on the webhook *)

Section WebhookMore.

Context {api : StripeAPI}.
Implicit Types (w : world api) (u k : string) (r : record) (d : data).

Lemma rec_get_subscribed_set k v r :
  k ≠ "subscribed" -> rec_get k (<["subscribed" := v]> r) = rec_get k r.
Proof. intros Hk. unfold rec_get. by rewrite lookup_insert_ne. Qed.

Lemma mark_customer_idem cust d :
  mark_customer cust (mark_customer cust d) = mark_customer cust d.
Proof.
  induction d as [|[uid rec] d IH]; simpl; [done|].
  destruct (py_eq (rec_get "stripe_customer_id" rec) cust) eqn:E; simpl.
  - rewrite rec_get_subscribed_set by done. rewrite E.
    by rewrite insert_insert_eq.
  - by rewrite E, IH.
Qed.

(** The loop either finds no match and returns the dict as it is, or marks
    the first match in file order. *)
Lemma mark_customer_cases cust d :
  unmatched cust d ∧ mark_customer cust d = d
  ∨ ∃ before uid rec after,
      d = before ++ (uid, rec) :: after
      ∧ unmatched cust before
      ∧ py_eq (rec_get "stripe_customer_id" rec) cust = true
      ∧ mark_customer cust d
        = before ++ (uid, <["subscribed" := VBool true]> rec) :: after.
Proof.
  induction d as [|[uid rec] d IH]; simpl.
  - left. split; [|done]. intros p Hp. by apply elem_of_nil in Hp.
  - destruct (py_eq (rec_get "stripe_customer_id" rec) cust) eqn:E.
    + right. exists [], uid, rec, d. repeat split; try done.
      intros p Hp. by apply elem_of_nil in Hp.
    + destruct IH as [[Hun ->] | (before & uid' & rec' & after & -> & Hun & Hm & ->)].
      * left. split; [|done]. intros p Hp.
        apply elem_of_cons in Hp as [-> | Hp]; [done|]. by apply Hun.
      * right. exists ((uid, rec) :: before), uid', rec', after.
        repeat split; try done. intros p Hp.
        apply elem_of_cons in Hp as [-> | Hp]; [done|]. by apply Hun.
Qed.

(** X1: a webhook that is delivered twice has the effect and the answer of
    one delivery, whatever its signature check, event type and customer. *)
Theorem webhook_redelivery (w : world api) (sig_ok : bool)
    (event_type : string) (cust : value) :
  serve (PostWebhook sig_ok event_type cust)
    (serve (PostWebhook sig_ok event_type cust) w).1
  = serve (PostWebhook sig_ok event_type cust) w.
Proof.
  unfold serve, route. rewrite !stripe_webhook_run.
  destruct sig_ok; simpl; [|done].
  destruct (String.eqb event_type _) eqn:E; simpl; [|done].
  unfold records at 1. simpl. by rewrite mark_customer_idem.
Qed.

(** X2: a webhook never calls Stripe and changes at most one record: with
    a refused signature or another event type the world is left as it is;
    otherwise the file is saved either with the records it held, or with
    [subscribed = True] in the first record, in file order, whose
    [stripe_customer_id] equals the customer, every later record being left
    alone even if it matches too. *)
Theorem webhook_changes_first_match_only (w : world api) (sig_ok : bool)
    (event_type : string) (cust : value) :
  stripe (serve (PostWebhook sig_ok event_type cust) w).1 = stripe w
  ∧ (confirms (PostWebhook sig_ok event_type cust) = false ->
     (serve (PostWebhook sig_ok event_type cust) w).1 = w)
  ∧ (records (serve (PostWebhook sig_ok event_type cust) w).1 = records w
     ∨ ∃ before uid rec after,
         records w = before ++ (uid, rec) :: after
         ∧ unmatched cust before
         ∧ py_eq (rec_get "stripe_customer_id" rec) cust = true
         ∧ records (serve (PostWebhook sig_ok event_type cust) w).1
           = before ++ (uid, <["subscribed" := VBool true]> rec) :: after).
Proof.
  unfold serve, route. rewrite stripe_webhook_run.
  destruct sig_ok; simpl; [|by repeat split; auto].
  destruct (String.eqb event_type _); simpl; [|by repeat split; auto].
  split; [done|]. split; [done|].
  unfold records at 1 4. simpl.
  destruct (mark_customer_cases cust (records w))
    as [[_ ->] | (before & uid & rec & after & Hd & Hun & Hm & ->)].
  - by left.
  - right. by exists before, uid, rec, after.
Qed.

(** X3: a [checkout.session.completed] event whose customer is [null]
    marks as subscribed the first record of the file that has no
    [stripe_customer_id]: [rec.get] answers [None] for the missing key, and
    [None == None]. *)
Theorem webhook_null_customer (w : world api) (uid : string) (rec : record)
    (before after : data) :
  records w = before ++ (uid, rec) :: after ->
  (∀ p, p ∈ before -> ∃ id, p.2 !! "stripe_customer_id" = Some (VStr id)) ->
  rec !! "stripe_customer_id" = None ->
  serve (PostWebhook true "checkout.session.completed" VNone) w
  = (Build_world
       (Some (before ++ (uid, <["subscribed" := VBool true]> rec) :: after))
       (stripe w),
     Empty200).
Proof.
  intros Hw Hb Hnone. unfold serve, route. rewrite stripe_webhook_run. simpl.
  rewrite Hw, mark_customer_first; [done| |].
  - intros p Hp. destruct (Hb p Hp) as [id Hid]. unfold rec_get.
    by rewrite Hid.
  - unfold rec_get. by rewrite Hnone.
Qed.

End WebhookMore.

(** X3, on the sample file whose only user has no billing account. *)
Lemma webhook_null_customer_witness :
  serve (PostWebhook true "checkout.session.completed" VNone)
    (stub_world (Some at_limit_file))
  = (stub_world (Some [("a@x.com", mk_record 3 true)]), Empty200).
Proof.
  apply (webhook_null_customer (stub_world (Some at_limit_file)) "a@x.com"
           (mk_record 3 false) [] [] eq_refl).
  - intros p Hp. by apply elem_of_nil in Hp.
  - reflexivity.
Defined.

(** ** Invariants of the server *)

Section Invariants.

Context {api : StripeAPI}.
Implicit Types (w : world api) (u k : string) (r : record) (d : data).

(** A relation between worlds that holds along the checkout helper, along
    [increment_usage] and along the loop of the webhook holds along every
    request; the loop is needed for the confirming webhooks only. *)
Lemma serve_frame (P : world api -> world api -> Prop) :
  (∀ w, P w w) ->
  (∀ w1 w2 w3, P w1 w2 -> P w2 w3 -> P w1 w3) ->
  (∀ u w, P w (_create_stripe_session u w).1) ->
  (∀ u n w, P w (increment_usage u n w).1) ->
  ∀ req w,
    (confirms req = true ->
     ∀ cust, P w (Build_world (Some (mark_customer cust (records w))) (stripe w))) ->
    P w (serve req w).1.
Proof.
  intros Hrefl Htrans Hcs Hinc req w Hmark.
  assert (∀ u w, P w (upload_gate u w).1) as Hgate.
  { intros u w0. destruct (upload_gate_world u w0) as [-> | (-> & _)]; auto. }
  assert (∀ (wrap : Session -> response) u w,
             P w (bind (_create_stripe_session u)
                    (fun session => ret (wrap session)) w).1) as Hco.
  { intros wrap u w0. unfold bind. specialize (Hcs u w0).
    by destruct (_create_stripe_session u w0) as [w1 [session|e]]. }
  assert (P w (route req w).1) as Hr.
  { destruct req as [user_id|user_id|sig_ok ty cust|user_id zip_ok work]; simpl.
    - unfold create_checkout_session.
      destruct (missing user_id); [apply Hrefl|].
      apply (Hco (fun s => JsonCheckoutUrl (url s))).
    - unfold checkout_redirect.
      destruct (missing user_id); [apply Hrefl|].
      apply (Hco (fun s => Redirect (url s))).
    - rewrite stripe_webhook_run. simpl in Hmark.
      destruct sig_ok; simpl in *; auto.
      destruct (String.eqb ty _); simpl; auto.
    - unfold upload. destruct (missing user_id); auto. unfold bind.
      pose proof (Hgate (default "" user_id) w) as Hg.
      destruct (upload_gate (default "" user_id) w) as [w1 [[|session]|e]];
        simpl in Hg; auto.
      destruct (negb zip_ok); auto. destruct work as [count|]; auto.
      destruct (Nat.eqb count 0); auto.
      pose proof (Hinc (default "" user_id) (Z.of_nat count) w1) as Hi.
      destruct (increment_usage _ _ w1) as [w2 [[]|e]]; simpl in *; eauto. }
  unfold serve. by destruct (route req w) as [w1 [resp|e]].
Qed.

Lemma flag_same_records u w w' : records w' = records w -> flag u w' = flag u w.
Proof. unfold flag, stored. by intros ->. Qed.

Lemma create_session_flag u' u w :
  flag u (_create_stripe_session u' w).1 = flag u w.
Proof.
  destruct (create_session_disk u' w) as [Hd | (id & Hnone & Hd)].
  { apply flag_same_records. unfold records. by rewrite Hd. }
  unfold flag. rewrite (stored_after_set _ u _ _ _ Hd).
  destruct (String.eqb_spec u' u) as [->|Hne]; [|done]. simpl.
  unfold cid. rewrite lookup_insert_ne by done.
  by destruct (stored u w).
Qed.

Lemma mark_customer_flag cust d u :
  dict_get u (mark_customer cust d) ≫= (.!! "subscribed")
  = dict_get u d ≫= (.!! "subscribed")
  ∨ dict_get u (mark_customer cust d) ≫= (.!! "subscribed")
    = Some (VBool true).
Proof.
  induction d as [|[uid rec] d IH]; simpl; [by left|].
  destruct (py_eq _ cust); simpl.
  - destruct (String.eqb uid u); [|by left]. right. simpl.
    apply lookup_insert_eq.
  - destruct (String.eqb uid u); [by left|done].
Qed.

(** X4: only a confirming webhook can change what the file says about a
    subscription: after any other request (an upload, either checkout route,
    a webhook with a refused signature or another event type) the
    [subscribed] field of every user reads as before. *)
Theorem subscription_only_by_webhook (req : request) (w : world api)
    (u : string) :
  confirms req = false -> flag u (serve req w).1 = flag u w.
Proof.
  intros Hc.
  apply (serve_frame (fun w1 w2 => flag u w2 = flag u w1)); try done.
  - intros w1 w2 w3 H12 H23. by rewrite H23.
  - intros u' w0. apply create_session_flag.
  - intros u' n w0. apply flag_same_records, increment_usage_records.
  - by rewrite Hc.
Qed.

(** X5: a subscription is never taken back: once the file holds
    [subscribed = True] for a user, it still does after any sequence of
    requests. *)
Theorem subscription_is_permanent (reqs : list request) (w : world api)
    (u : string) :
  flag u w = Some (VBool true) -> flag u (serve_all reqs w) = Some (VBool true).
Proof.
  revert w. induction reqs as [|req reqs IH]; intros w Hf; simpl; [done|].
  apply IH.
  apply (serve_frame (fun w1 w2 =>
           flag u w1 = Some (VBool true) -> flag u w2 = Some (VBool true)));
    try done; auto.
  - intros u' w0. by rewrite create_session_flag.
  - intros u' n w0.
    by rewrite (flag_same_records u _ _ (increment_usage_records u' n w0)).
  - intros _ cust Hf'. unfold flag, stored in *.
    change (records (Build_world (Some (mark_customer cust (records w)))
                       (stripe w)))
      with (mark_customer cust (records w)).
    by destruct (mark_customer_flag cust (records w) u) as [-> | ->].
Qed.

Lemma dict_get_None_ids k d : dict_get k d = None -> k ∉ d.*1.
Proof.
  induction d as [|[k' r'] d IH]; simpl; [intros _; apply not_elem_of_nil|].
  destruct (String.eqb_spec k' k) as [->|Hne]; [done|].
  intros H. apply not_elem_of_cons. split; [done|]. by apply IH.
Qed.

Lemma dict_set_ids k r d :
  (dict_set k r d).*1
  = match dict_get k d with Some _ => d.*1 | None => d.*1 ++ [k] end.
Proof.
  induction d as [|[k' r'] d IH]; [done|].
  cbn [dict_set dict_get].
  destruct (String.eqb_spec k' k) as [->|Hne]; [done|].
  rewrite !fmap_cons, IH. by destruct (dict_get k d).
Qed.

Lemma mark_customer_ids cust d : (mark_customer cust d).*1 = d.*1.
Proof.
  induction d as [|[uid rec] d IH]; [done|].
  cbn [mark_customer]. destruct (py_eq _ cust); [done|].
  by rewrite !fmap_cons, IH.
Qed.

Lemma create_session_ids u w :
  user_ids (_create_stripe_session u w).1 = user_ids w
  ∨ ((u ∉ user_ids w)
     ∧ user_ids (_create_stripe_session u w).1 = user_ids w ++ [u]).
Proof.
  destruct (create_session_disk u w) as [Hd | (id & Hnone & Hd)].
  { left. unfold user_ids, records. by rewrite Hd. }
  unfold user_ids.
  assert (records (_create_stripe_session u w).1
          = dict_set u (<[cid:=VStr id]> (default ∅ (stored u w))) (records w))
    as ->.
  { unfold records at 1. by rewrite Hd. }
  rewrite dict_set_ids. unfold stored.
  destruct (dict_get u (records w)) eqn:E; [by left|].
  right. split; [|done]. by apply dict_get_None_ids.
Qed.

(** X6: user ids are only ever appended to the file: after any sequence of
    requests the ids the file started with are still there, in the same
    order and at the same positions, new ones coming after them; and if no
    id occurred twice before, none does after. *)
Theorem user_ids_append_only (reqs : list request) (w : world api) :
  user_ids w `prefix_of` user_ids (serve_all reqs w)
  ∧ (NoDup (user_ids w) -> NoDup (user_ids (serve_all reqs w))).
Proof.
  revert w. induction reqs as [|req reqs IH]; intros w; simpl; [done|].
  assert (user_ids w `prefix_of` user_ids (serve req w).1
          ∧ (NoDup (user_ids w) -> NoDup (user_ids (serve req w).1))) as [Hp Hn].
  { apply (serve_frame (fun w1 w2 =>
             user_ids w1 `prefix_of` user_ids w2
             ∧ (NoDup (user_ids w1) -> NoDup (user_ids w2)))); try done.
    - intros w1 w2 w3 [H12 N12] [H23 N23]. split; [by etrans|auto].
    - intros u w0. destruct (create_session_ids u w0) as [-> | [Hnew ->]];
        [done|]. split; [by apply prefix_app_r|].
      intros Hnd. apply NoDup_app. split; [done|]. split.
      + intros x Hx Hx'. apply list_elem_of_singleton in Hx' as ->. done.
      + apply NoDup_singleton.
    - intros u n w0. unfold user_ids. by rewrite increment_usage_records.
    - intros _ cust. unfold user_ids.
      change (records (Build_world (Some (mark_customer cust (records w)))
                         (stripe w)))
        with (mark_customer cust (records w)).
      by rewrite mark_customer_ids. }
  destruct (IH (serve req w).1) as [Hp' Hn'].
  split; [by etrans|auto].
Qed.

End Invariants.

(** X4, for an upload of the user of the sample file at the limit. *)
Lemma subscription_only_by_webhook_witness :
  flag "a@x.com"
    (serve (PostUpload (Some "a@x.com") true (Some 1%nat))
       (stub_world (Some at_limit_file))).1
  = Some (VBool false).
Proof.
  apply (subscription_only_by_webhook
           (PostUpload (Some "a@x.com") true (Some 1%nat))
           (stub_world (Some at_limit_file)) "a@x.com" eq_refl).
Defined.

(** X5, for a subscribed user who asks for a checkout and uploads. *)
Lemma subscription_is_permanent_witness :
  flag "a@x.com"
    (serve_all [GetCheckout (Some "a@x.com");
                PostUpload (Some "a@x.com") true (Some 2%nat);
                PostWebhook true "checkout.session.completed" (VStr "cus_b")]
       (stub_world (Some [("a@x.com", mk_record 5 true)])))
  = Some (VBool true).
Proof.
  apply (subscription_is_permanent _
           (stub_world (Some [("a@x.com", mk_record 5 true)])) "a@x.com" eq_refl).
Defined.

(** ** The checkout helper and the checkout routes *)

Section Checkout.

Context {api : StripeAPI}.
Implicit Types (w : world api) (u k : string) (r : record) (d : data).

Lemma billing_default u w : default ∅ (stored u w) !! cid = billing u w.
Proof. unfold billing. by destruct (stored u w). Qed.

(** X7: for a user whose stored record holds a customer id, the checkout
    helper asks Stripe for a session for that customer and does nothing
    else: no customer is created and the file is not written. *)
Theorem create_session_reuses_customer (w : world api) (u : string)
    (customer : value) :
  billing u w = Some customer ->
  _create_stripe_session u w = stripe_Session_create customer w
  ∧ disk (_create_stripe_session u w).1 = disk w.
Proof.
  intros Hb. rewrite create_session_run. simpl.
  rewrite billing_default, Hb. split; [done|]. apply Session_create_disk.
Qed.

(** X8: for a user without customer id, once Stripe has created the
    customer the id is in the file before the session is asked for: whether
    the session call returns or raises, the user's record is the one it was
    (an empty one if there was none) with the id added, and the next call of
    the helper creates no second customer. *)
Theorem create_session_saves_customer_first (w : world api) (u id : string)
    (s : stripe_state api) :
  billing u w = None ->
  Customer_create api u (stripe w) = (s, Some id) ->
  stored u (_create_stripe_session u w).1
  = Some (<["stripe_customer_id" := VStr id]> (default ∅ (stored u w)))
  ∧ _create_stripe_session u (_create_stripe_session u w).1
    = stripe_Session_create (VStr id) (_create_stripe_session u w).1.
Proof.
  intros Hb Hc.
  assert (stored u (_create_stripe_session u w).1
          = Some (<[cid := VStr id]> (default ∅ (stored u w)))) as Hst.
  { rewrite create_session_run. simpl. rewrite billing_default, Hb, Hc.
    erewrite stored_after_set; [|by rewrite Session_create_disk].
    by rewrite String.eqb_refl. }
  split; [done|].
  rewrite (create_session_run u (_create_stripe_session u w).1). simpl.
  rewrite Hst. simpl. by rewrite lookup_insert_eq.
Qed.

(** X9: when Stripe refuses to create the customer, the helper raises and
    the file is as it was (it is not even created, and the user gets no
    record); both checkout routes answer with status 500. *)
Theorem create_session_customer_failure (w : world api) (u : string)
    (s : stripe_state api) :
  billing u w = None ->
  Customer_create api u (stripe w) = (s, None) ->
  _create_stripe_session u w = (Build_world (disk w) s, Raise StripeError)
  ∧ (u ≠ "" ->
     serve (GetCheckout (Some u)) w
     = (Build_world (disk w) s, InternalServerError StripeError)
     ∧ serve (PostCreateCheckoutSession (Some u)) w
       = (Build_world (disk w) s, InternalServerError StripeError)).
Proof.
  intros Hb Hc.
  assert (_create_stripe_session u w
          = (Build_world (disk w) s, Raise StripeError)) as Hcs.
  { rewrite create_session_run. simpl. by rewrite billing_default, Hb, Hc. }
  split; [done|]. intros Hu. apply String.eqb_neq in Hu.
  unfold serve, route, checkout_redirect, create_checkout_session, bind.
  simpl. by rewrite Hu, Hcs.
Qed.

(** X10: for a JSON body [{"user_id": u}] and a query [?user_id=u] with the
    same string [u], the two checkout routes are one operation behind two
    answers.  They leave the same world: the one the checkout helper leaves,
    or for an empty [u] the one they found.  The JSON route answers with a
    checkout URL exactly when the browser route redirects to that URL, and
    with status 500 and an exception exactly when the browser route does.
    For an empty [u] both refuse with status 400. *)
Theorem checkout_routes_agree (w : world api) (u : string) :
  (serve (PostCreateCheckoutSession (Some u)) w).1
  = (serve (GetCheckout (Some u)) w).1
  ∧ (serve (GetCheckout (Some u)) w).1
    = (if String.eqb u "" then w else (_create_stripe_session u w).1)
  ∧ (∀ x, (serve (PostCreateCheckoutSession (Some u)) w).2 = JsonCheckoutUrl x
          ↔ (serve (GetCheckout (Some u)) w).2 = Redirect x)
  ∧ (∀ e, (serve (PostCreateCheckoutSession (Some u)) w).2
          = InternalServerError e
          ↔ (serve (GetCheckout (Some u)) w).2 = InternalServerError e)
  ∧ (u = "" ->
     serve (PostCreateCheckoutSession (Some u)) w
     = (w, JsonError "user_id required" 400)
     ∧ serve (GetCheckout (Some u)) w = (w, Abort 400)).
Proof.
  unfold serve, route, checkout_redirect, create_checkout_session, bind.
  simpl. destruct (String.eqb_spec u "") as [->|Hne]; simpl.
  - repeat split; done.
  - destruct (_create_stripe_session u w) as [w1 [session|e]]; simpl.
    + repeat split; try done; by intros [= ->].
    + repeat split; try done; by intros [= ->].
Qed.

End Checkout.

(** X7, for the first user of the sample file with two billing accounts. *)
Lemma create_session_reuses_customer_witness :
  _create_stripe_session "a@x.com" (stub_world (Some two_users_file))
  = stripe_Session_create (VStr "cus_a@x.com")
      (stub_world (Some two_users_file))
  ∧ disk (_create_stripe_session "a@x.com" (stub_world (Some two_users_file))).1
    = Some two_users_file.
Proof.
  apply (create_session_reuses_customer (stub_world (Some two_users_file))
           "a@x.com" (VStr "cus_a@x.com") eq_refl).
Defined.

(** X8, for the user of the sample file at the limit, who has a record but
    no billing account. *)
Lemma create_session_saves_customer_first_witness :
  stored "a@x.com"
    (_create_stripe_session "a@x.com" (stub_world (Some at_limit_file))).1
  = Some (<[cid := VStr "cus_a@x.com"]> (mk_record 3 false))
  ∧ _create_stripe_session "a@x.com"
      (_create_stripe_session "a@x.com" (stub_world (Some at_limit_file))).1
    = stripe_Session_create (VStr "cus_a@x.com")
        (_create_stripe_session "a@x.com" (stub_world (Some at_limit_file))).1.
Proof.
  apply (create_session_saves_customer_first (stub_world (Some at_limit_file))
           "a@x.com" "cus_a@x.com" 1%nat eq_refl eq_refl).
Defined.

(** X9, for an unknown user while Stripe is down. *)
Lemma create_session_customer_failure_witness :
  _create_stripe_session "a@x.com" (@Build_world down_stripe None O)
  = (@Build_world down_stripe None 1%nat, Raise StripeError)
  ∧ serve (GetCheckout (Some "a@x.com")) (@Build_world down_stripe None O)
    = (@Build_world down_stripe None 1%nat, InternalServerError StripeError).
Proof.
  destruct (create_session_customer_failure (@Build_world down_stripe None O)
              "a@x.com" 1%nat eq_refl eq_refl) as [H1 H2].
  split; [exact H1|]. apply H2. discriminate.
Defined.

(** ** The answers of [upload] *)

Section Upload.

Context {api : StripeAPI}.
Implicit Types (w : world api) (u k : string) (r : record) (d : data).

(** After an [Allowed] check, recording cannot raise: the check has read an
    integer [used]. *)
Lemma allowed_then_increment u n w :
  (upload_gate u w).2 = Ret Allowed ->
  (upload_gate u w).1 = w
  ∧ increment_usage u n w
    = (Build_world (Some (records w)) (stripe w), Ret tt).
Proof.
  intros Hg. split.
  { destruct (upload_gate_world u w) as [E | (_ & Hne & _)]; done. }
  rewrite upload_gate_run in Hg. rewrite increment_usage_run. simpl in Hg.
  destruct (getitem "used" _) as [used|]; [|done].
  unfold py_ge in Hg. unfold py_add. by destruct (as_int used).
Qed.

(** X11: the answers of an upload that names its user.  A user the check
    stops is answered with status 402 and the checkout URL whatever was
    uploaded; an exception of the check is answered with status 500.  For a
    user the check allows, a file that is not a [.zip], a failure while the
    archive is handled, and an archive without refactored file are answered
    with 400, 500 and 500, and leave the whole world as it was: nothing is
    written and Stripe is not called.  With at least one refactored file the
    answer is the archive, and Stripe is not called either. *)
Theorem upload_answers (w : world api) (u : string) :
  u ≠ "" ->
  (∀ session zip_ok work,
      (upload_gate u w).2 = Ret (QuotaExceeded session) ->
      serve (PostUpload (Some u) zip_ok work) w
      = ((upload_gate u w).1,
         JsonPaymentRequired "Free limit reached. Subscribe to continue."
           (url session)))
  ∧ (∀ e zip_ok work,
        (upload_gate u w).2 = Raise e ->
        serve (PostUpload (Some u) zip_ok work) w
        = ((upload_gate u w).1, InternalServerError e))
  ∧ ((upload_gate u w).2 = Ret Allowed ->
     (∀ work, serve (PostUpload (Some u) false work) w
              = (w, JsonError "Upload a valid .zip" 400))
     ∧ serve (PostUpload (Some u) true None) w = (w, InternalServerError IOError)
     ∧ serve (PostUpload (Some u) true (Some O)) w
       = (w, JsonError "No refactor output" 500)
     ∧ (∀ n, (serve (PostUpload (Some u) true (Some (S n))) w).2 = SendFile
             ∧ stripe (serve (PostUpload (Some u) true (Some (S n))) w).1
               = stripe w)).
Proof.
  intros Hu. apply String.eqb_neq in Hu.
  unfold serve, route, upload, bind. simpl. rewrite Hu.
  split; [|split].
  - intros session zip_ok work Hg.
    destruct (upload_gate u w) as [w1 [g|e]]; simpl in *; [|done].
    by injection Hg as ->.
  - intros e zip_ok work Hg.
    destruct (upload_gate u w) as [w1 [g|e']]; simpl in *; [done|].
    by injection Hg as ->.
  - intros Hg.
    pose proof (allowed_then_increment u 0 w Hg) as [Hw _].
    assert (∀ n, increment_usage u n w
                 = (Build_world (Some (records w)) (stripe w), Ret tt)) as Hinc.
    { intros n. by apply allowed_then_increment. }
    destruct (upload_gate u w) as [w1 [g|e]]; simpl in *; [|done].
    injection Hg as ->. subst w1.
    split; [done|]. split; [done|]. split; [done|].
    intros n. change (Nat.eqb (S n) 0) with false. cbn iota.
    by rewrite Hinc.
Qed.

End Upload.

(** X11, for an unknown user, whom the check allows, on an absent file. *)
Lemma upload_answers_witness :
  serve (PostUpload (Some "a@x.com") true (Some O)) (stub_world None)
  = (stub_world None, JsonError "No refactor output" 500)
  ∧ (serve (PostUpload (Some "a@x.com") true (Some 2%nat)) (stub_world None)).2
    = SendFile.
Proof.
  destruct (upload_answers (stub_world None) "a@x.com" ltac:(discriminate))
    as (_ & _ & H).
  destruct (H eq_refl) as (_ & _ & H0 & Hn).
  split; [exact H0|]. apply (Hn 1%nat).
Defined.

(** ** Stripping *)

Section Strip.

Implicit Types (s t : text) (c : N).

Lemma lstrip_split s : ∃ a, s = a ++ lstrip s ∧ blank a.
Proof.
  induction s as [|c s (a & Hs & Ha)]; simpl.
  - exists []. split; [done|]. apply Forall_nil_2.
  - destruct (isspace c) eqn:E.
    + exists (c :: a). split; [simpl; by f_equal|]. by apply Forall_cons.
    + exists []. split; [done|]. apply Forall_nil_2.
Qed.

Lemma lstrip_head s c : head (lstrip s) = Some c -> isspace c = false.
Proof.
  induction s as [|c' s IH]; simpl; [done|].
  destruct (isspace c') eqn:E; [done|]. by intros [= <-].
Qed.

Lemma rstrip_split s : ∃ b, s = rstrip s ++ b ∧ blank b.
Proof.
  induction s as [|c s (b & Hs & Hb)]; simpl.
  - exists []. split; [done|]. apply Forall_nil_2.
  - destruct (rstrip s) as [|c' t] eqn:E.
    + destruct (isspace c) eqn:Ec.
      * exists (c :: b). simpl in Hs. subst s. split; [done|].
        by apply Forall_cons.
      * exists b. simpl in *. by subst s.
    + exists b. split; [|done]. simpl. by rewrite Hs at 1.
Qed.

Lemma rstrip_last s c : last (rstrip s) = Some c -> isspace c = false.
Proof.
  induction s as [|c' s IH]; simpl; [done|].
  destruct (rstrip s) as [|c'' t] eqn:E.
  - destruct (isspace c') eqn:Ec; [done|]. by intros [= <-].
  - intros H. apply IH. by rewrite last_cons_cons in H.
Qed.

Lemma rstrip_head s c :
  isspace c = false -> head (rstrip (c :: s)) = Some c.
Proof. intros Hc. simpl. destruct (rstrip s); [by rewrite Hc|done]. Qed.

Lemma rstrip_blank s : rstrip s = [] ↔ blank s.
Proof.
  unfold blank. induction s as [|c s IH]; simpl.
  - split; [intros _; apply Forall_nil_2|done].
  - destruct (rstrip s) as [|c' t] eqn:E.
    + destruct (isspace c) eqn:Ec.
      * split; [intros _|done]. apply Forall_cons. split; [done|]. by apply IH.
      * split; [done|]. intros H. apply Forall_cons in H as [H _]. congruence.
    + split; [done|]. intros H. apply Forall_cons in H as [_ H].
      by apply IH in H.
Qed.

Lemma lstrip_blank s : lstrip s = [] ↔ blank s.
Proof.
  unfold blank. induction s as [|c s IH]; simpl.
  - split; [intros _; apply Forall_nil_2|done].
  - destruct (isspace c) eqn:Ec.
    + rewrite IH. split; [intros H; by apply Forall_cons|].
      intros H. by apply Forall_cons in H as [_ H].
    + split; [done|]. intros H. apply Forall_cons in H as [H _]. congruence.
Qed.

(** [strip] cuts a blank prefix and a blank suffix off, and what is left
    neither begins nor ends with whitespace. *)
Lemma strip_split s :
  ∃ a b, s = a ++ strip s ++ b ∧ blank a ∧ blank b ∧ trimmed (strip s).
Proof.
  destruct (lstrip_split s) as (a & Hs & Ha).
  destruct (rstrip_split (lstrip s)) as (b & Hl & Hb).
  exists a, b. unfold strip. split; [by rewrite <- Hl|].
  split; [done|]. split; [done|]. split.
  - intros c. destruct (lstrip s) as [|c' t] eqn:E; [done|].
    assert (isspace c' = false) as Hc' by (apply (lstrip_head s); by rewrite E).
    rewrite (rstrip_head t c' Hc'). by intros [= <-].
  - apply rstrip_last.
Qed.

Lemma strip_empty s : strip s = [] ↔ blank s.
Proof.
  unfold strip. rewrite rstrip_blank. split.
  - intros H. destruct (lstrip_split s) as (a & Hs & Ha).
    rewrite Hs. unfold blank in *. by apply Forall_app.
  - intros H. destruct (lstrip_split s) as (a & Hs & Ha).
    unfold blank in *. rewrite Hs in H. by apply Forall_app in H as [_ H].
Qed.

End Strip.

(** ** [_refactor] and the loop over the files *)

Section Refactor.

Context {ai : OpenAIAPI}.
Implicit Types (o : openai_state ai) (files : list walked).

(** X12: [_refactor] makes one call and never raises.  When the call fails
    it returns [None]; when the call answers, it returns the answer without
    the whitespace around it, a text that neither begins nor ends with
    whitespace; that text is empty exactly when the answer is blank. *)
Theorem refactor_result (code : text) (o : openai_state ai) :
  (_refactor code o).1 = (refactor_call code o).1
  ∧ match (refactor_call code o).2 with
    | None => (_refactor code o).2 = None
    | Some content =>
        ∃ a t b,
          (_refactor code o).2 = Some t
          ∧ content = a ++ t ++ b ∧ blank a ∧ blank b ∧ trimmed t
          ∧ (t = [] ↔ blank content)
    end.
Proof.
  unfold _refactor. destruct (refactor_call code o) as [o' [content|]]; simpl.
  - split; [done|].
    destruct (strip_split content) as (a & b & Hc & Ha & Hb & Ht).
    exists a, (strip content), b.
    split; [done|]. split; [done|]. split; [done|]. split; [done|].
    split; [done|]. apply strip_empty.
  - done.
Qed.

Lemma refactor_trimmed code o t : (_refactor code o).2 = Some t -> trimmed t.
Proof.
  unfold _refactor. destruct (refactor_call code o) as [o' [content|]]; [|done].
  intros [= <-]. by destruct (strip_split content) as (a & b & _ & _ & _ & Ht).
Qed.

Lemma refactor_files_acc files outs count o o' outs' count' :
  refactor_files files outs count o = (o', Ret (outs', count')) ->
  ∃ new,
    outs' = outs ++ new
    ∧ count' = (count + length new)%nat
    ∧ Forall (fun p => p.2 ≠ [] ∧ trimmed p.2) new
    ∧ new.*1 `sublist_of` (rel <$> filter (fun f => is_js (fn f) = true) files).
Proof.
  revert outs count o. induction files as [|f files IH]; intros outs count o.
  { intros [= <- <- <-]. exists []. rewrite app_nil_r. simpl.
    repeat split; [lia|apply Forall_nil_2|done]. }
  cbn [refactor_files]. destruct (is_js (fn f)) eqn:Hjs.
  2:{ intros H. destruct (IH _ _ _ H) as (new & -> & -> & Hall & Hsub).
      exists new. repeat split; try done.
      rewrite filter_cons_False by congruence. done. }
  rewrite filter_cons_True by done. rewrite fmap_cons.
  destruct (code f) as [c|]; [|done].
  pose proof (refactor_trimmed c o) as Ht.
  destruct (_refactor c o) as [o1 [[|c0 t]|]]; simpl in Ht.
  - intros H. destruct (IH _ _ _ H) as (new & -> & -> & Hall & Hsub).
    exists new. repeat split; try done. by apply sublist_cons.
  - intros H. destruct (IH _ _ _ H) as (new & -> & -> & Hall & Hsub).
    exists ((rel f, c0 :: t) :: new). rewrite <- app_assoc. simpl.
    repeat split; [lia| |by apply sublist_skip].
    apply Forall_cons. split; [|done]. split; [done|]. by apply Ht.
  - intros H. destruct (IH _ _ _ H) as (new & -> & -> & Hall & Hsub).
    exists new. repeat split; try done. by apply sublist_cons.
Qed.

(** X13: when the loop ends normally, the count it hands to
    [increment_usage] is the number of files it has written; every written
    file is a non-empty text without whitespace around it; and the written
    paths are paths of [.js] and [.jsx] files of the archive, in the order
    of the walk, each at most once per occurrence. *)
Theorem refactor_files_outputs files o o' outs count :
  refactor_files files [] O o = (o', Ret (outs, count)) ->
  count = length outs
  ∧ Forall (fun p => p.2 ≠ [] ∧ trimmed p.2) outs
  ∧ outs.*1 `sublist_of` (rel <$> filter (fun f => is_js (fn f) = true) files)
  ∧ (count <= length (filter (fun f => is_js (fn f) = true) files))%nat.
Proof.
  intros H. destruct (refactor_files_acc _ _ _ _ _ _ _ H)
    as (new & -> & -> & Hall & Hsub).
  simpl. repeat split; try done.
  apply sublist_length in Hsub. by rewrite !length_fmap in Hsub.
Qed.

Lemma refactor_files_exn files outs count o e :
  (refactor_files files outs count o).2 = Raise e -> e = IOError.
Proof.
  revert outs count o. induction files as [|f files IH]; intros outs count o.
  { done. }
  cbn [refactor_files]. destruct (is_js (fn f)); [|apply IH].
  destruct (code f) as [c|]; [|by intros [= <-]].
  destruct (_refactor c o) as [o1 [[|c0 t]|]]; apply IH.
Qed.

(** X14: the loop raises exactly when a [.js] or [.jsx] file of the archive
    cannot be read, and then with the error of the read; a failed OpenAI
    call is never an error of the loop.  (Writing below the result directory
    is taken to succeed.) *)
Theorem refactor_files_raises files outs count o :
  ((∃ e, (refactor_files files outs count o).2 = Raise e)
   ↔ Exists (fun f => is_js (fn f) = true ∧ code f = None) files)
  ∧ (∀ e, (refactor_files files outs count o).2 = Raise e -> e = IOError).
Proof.
  revert outs count o. induction files as [|f files IH]; intros outs count o.
  { simpl. split; [|done]. split; [by intros [e ?]|].
    intros H. by apply Exists_nil in H. }
  cbn [refactor_files]. rewrite Exists_cons.
  destruct (is_js (fn f)) eqn:Hjs.
  2:{ destruct (IH outs count o) as [H1 H2]. split; [|done].
      rewrite H1. split; [by right|]. by intros [[? _]|]. }
  destruct (code f) as [c|] eqn:Hc.
  2:{ simpl. split; [|by intros e [= <-]]. split; [by left|by exists IOError]. }
  assert (∀ outs count o,
             ((∃ e, (refactor_files files outs count o).2 = Raise e)
              ↔ (true = true ∧ Some c = None)
                ∨ Exists (fun f => is_js (fn f) = true ∧ code f = None) files)
             ∧ (∀ e, (refactor_files files outs count o).2 = Raise e
                     -> e = IOError)) as IH'.
  { intros outs0 count0 o0. destruct (IH outs0 count0 o0) as [H1 H2].
    split; [|done]. rewrite H1. split; [by right|]. by intros [[_ ?]|]. }
  destruct (_refactor c o) as [o1 [[|c0 t]|]]; apply IH'.
Qed.

(** An archive without [.js] or [.jsx] file costs no OpenAI call. *)
Lemma refactor_files_no_js files outs count o :
  Forall (fun f => is_js (fn f) = false) files ->
  refactor_files files outs count o = (o, Ret (outs, count)).
Proof.
  induction 1 as [|f files Hf _ IH]; simpl; [done|]. by rewrite Hf.
Qed.

End Refactor.

(** X13, for the sample archive, refactored by the stand-in. *)
Lemma refactor_files_outputs_witness :
  ∃ o' outs count,
    @refactor_files echo_openai sample_archive [] O O = (o', Ret (outs, count))
    ∧ count = length outs
    ∧ count = 2%nat.
Proof.
  eexists _, _, _. split; [reflexivity|]. split; [|reflexivity].
  exact (proj1 (@refactor_files_outputs echo_openai sample_archive O _ _ _
                  eq_refl)).
Defined.

(** ** The tests on file names *)

Section Names.

Implicit Types (s t p : string).

Lemma endswith_spec s t : endswith s t = true ↔ ∃ p, s = (p ++ t)%string.
Proof.
  induction s as [|a s IH]; cbn [endswith].
  - rewrite orb_false_r, String.eqb_eq. split.
    + intros <-. by exists EmptyString.
    + intros [[|b p] H]; simpl in H; [done|discriminate].
  - rewrite orb_true_iff, String.eqb_eq, IH. split.
    + intros [<- | [p ->]]; [by exists EmptyString|]. by exists (String a p).
    + intros [[|b p] H]; simpl in H; [by left|].
      injection H as -> ->. right. by exists p.
Qed.

Lemma lower_app s t : lower (s ++ t)%string = (lower s ++ lower t)%string.
Proof. induction s as [|a s IH]; simpl; [done|]. by rewrite IH. Qed.

Lemma lower_app_inv s p t :
  lower s = (p ++ t)%string ->
  ∃ s1 s2, s = (s1 ++ s2)%string ∧ lower s1 = p ∧ lower s2 = t.
Proof.
  revert s. induction p as [|b p IH]; intros s; simpl.
  - intros H. by exists EmptyString, s.
  - destruct s as [|a s]; simpl; [done|]. intros [= Ha Hs].
    destruct (IH s Hs) as (s1 & s2 & -> & <- & <-).
    exists (String a s1), s2. simpl. by rewrite Ha.
Qed.

(** X15: the two tests on file names.  An upload passes the [.zip] test
    exactly when a file is sent whose name ends with [.zip] in any mix of
    upper and lower case; a file of the archive is refactored only if its
    name ends with [.js] or [.jsx], in lower case. *)
Theorem file_name_tests :
  is_zip None = false
  ∧ (∀ name, is_zip (Some name) = true
             ↔ ∃ p e, name = (p ++ e)%string ∧ lower e = ".zip")
  ∧ (∀ name, is_js name = true
             ↔ ∃ p, name = (p ++ ".js")%string ∨ name = (p ++ ".jsx")%string).
Proof.
  split; [done|]. split.
  - intros name. unfold is_zip. rewrite andb_true_iff, endswith_spec. split.
    + intros [_ [p0 H]]. destruct (lower_app_inv _ _ _ H) as (p & e & -> & _ & He).
      by exists p, e.
    + intros (p & e & -> & He). split.
      * destruct p; [|done]. by destruct e.
      * exists (lower p). by rewrite lower_app, He.
  - intros name. unfold is_js. rewrite orb_true_iff, !endswith_spec.
    split.
    + intros [[p ->] | [p ->]]; exists p; auto.
    + intros [p [-> | ->]]; [left|right]; by exists p.
Qed.

End Names.

(** ** [upload] with its files *)

Section Archive.

Context {api : StripeAPI} {ai : OpenAIAPI}.
Implicit Types (w : world api) (o : openai_state ai) (files : list walked).

(** X16: [upload] with the file handling spelled out does what [upload]
    does when it is given the outcome of the [.zip] test and the count of
    the loop: same world, same answer. *)
Theorem upload_archive_refines (user_id filename : option string)
    (archive : option (list walked)) (w : world api) (o : openai_state ai) :
  (upload_archive user_id filename archive w o).1.1
  = (upload user_id (is_zip filename) (work_of archive o) w).1
  ∧ (upload_archive user_id filename archive w o).2
    = (upload user_id (is_zip filename) (work_of archive o) w).2.
Proof.
  unfold upload_archive, upload, bind, work_of.
  destruct (missing user_id); [done|].
  destruct (upload_gate (default "" user_id) w) as [w1 [[|session]|e]];
    simpl; try done.
  destruct (negb (is_zip filename)); [done|].
  destruct archive as [files|]; [|done].
  pose proof (refactor_files_exn files [] O o) as Hexn.
  destruct (refactor_files files [] O o) as [o1 [[outs count]|e]]; simpl.
  - destruct (Nat.eqb count 0); [done|].
    by destruct (increment_usage _ _ w1) as [w2 [[]|e]].
  - by rewrite (Hexn e eq_refl).
Qed.

(** X17: OpenAI is called for uploads that reach the loop only: a request
    without user id, a user the check does not allow, a file that fails the
    [.zip] test, and an archive that cannot be extracted leave the OpenAI
    state as it was. *)
Theorem openai_only_for_accepted_uploads (user_id filename : option string)
    (archive : option (list walked)) (w : world api) (o : openai_state ai) :
  missing user_id = true
  ∨ (upload_gate (default "" user_id) w).2 ≠ Ret Allowed
  ∨ is_zip filename = false
  ∨ archive = None ->
  (upload_archive user_id filename archive w o).1.2 = o.
Proof.
  unfold upload_archive. intros H.
  destruct (missing user_id); [done|].
  destruct (upload_gate (default "" user_id) w) as [w1 [[|session]|e]];
    simpl in *; try done.
  destruct (is_zip filename); simpl; [|done].
  destruct archive as [files|]; [|done].
  by destruct H as [H | [H | [H | H]]].
Qed.

(** X18: an allowed upload of a [.zip] whose archive holds no [.js] or
    [.jsx] file is answered with status 500, [No refactor output], without
    any call to OpenAI or Stripe and without any write. *)
Theorem archive_without_js (u : string) (filename : option string)
    (files : list walked) (w : world api) (o : openai_state ai) :
  u ≠ "" ->
  (upload_gate u w).2 = Ret Allowed ->
  is_zip filename = true ->
  Forall (fun f => is_js (fn f) = false) files ->
  upload_archive (Some u) filename (Some files) w o
  = (w, o, Ret (JsonError "No refactor output" 500)).
Proof.
  intros Hu Hg Hz Hf. apply String.eqb_neq in Hu.
  unfold upload_archive. simpl. rewrite Hu, Hz. simpl.
  pose proof (allowed_then_increment u 0 w Hg) as [Hw _].
  destruct (upload_gate u w) as [w1 [g|e]]; simpl in *; [|done].
  injection Hg as ->. subst w1.
  by rewrite (refactor_files_no_js files [] O o Hf).
Qed.

End Archive.

(** X17, for a file that is not a [.zip]. *)
Lemma openai_only_for_accepted_uploads_witness :
  (@upload_archive stub_stripe echo_openai (Some "a@x.com") (Some "notes.txt")
     (Some sample_archive) (stub_world None) 7%nat).1.2 = 7%nat.
Proof.
  apply (@openai_only_for_accepted_uploads stub_stripe echo_openai).
  right. right. left. reflexivity.
Defined.

(** X18, for an archive that holds a text file only. *)
Lemma archive_without_js_witness :
  @upload_archive stub_stripe echo_openai (Some "a@x.com") (Some "Proj.ZIP")
    (Some [ {| rel := "README.md"; fn := "README.md"; code := None |} ])
    (stub_world None) 7%nat
  = (stub_world None, 7%nat, Ret (JsonError "No refactor output" 500)).
Proof.
  apply (@archive_without_js stub_stripe echo_openai "a@x.com").
  - discriminate.
  - reflexivity.
  - reflexivity.
  - apply Forall_cons. split; [reflexivity|]. apply Forall_nil_2.
Defined.

(** ** The values the gate reads *)

Section Values.

Context {api : StripeAPI}.
Implicit Types (w : world api) (u k : string) (r : record) (d : data).

(** X19: the entitlement check on stored values that are [null],
    booleans, integers or strings (floats, arrays and objects are outside
    the values of this model).  A [used] that is [null] or a string raises
    [TypeError] and writes nothing;
    a boolean [used] counts as 0 or 1.  Under the limit the check is
    [Allowed]; at the limit it is [Allowed] as soon as [subscribed] is
    truthy, be it [True], a non-zero number or a non-empty string, and
    otherwise its outcome is the one of the checkout helper. *)
Theorem upload_gate_values (w : world api) (u : string) (rec : record)
    (used : value) :
  stored u w = Some rec ->
  rec !! "used" = Some used ->
  (as_int used = None -> upload_gate u w = (w, Raise TypeError))
  ∧ (∀ n, as_int used = Some n -> n < FREE_LIMIT ->
          upload_gate u w = (w, Ret Allowed))
  ∧ (∀ n subscribed,
        as_int used = Some n -> FREE_LIMIT <= n ->
        rec !! "subscribed" = Some subscribed ->
        (truthy subscribed = true -> upload_gate u w = (w, Ret Allowed))
        ∧ (truthy subscribed = false ->
           upload_gate u w
           = match _create_stripe_session u w with
             | (w', Ret session) => (w', Ret (QuotaExceeded session))
             | (w', Raise e) => (w', Raise e)
             end)).
Proof.
  intros Hrec Hu. rewrite upload_gate_run, Hrec. simpl.
  unfold getitem, py_ge. rewrite Hu. split; [|split].
  - by intros ->.
  - intros n -> Hlt. by apply Z.leb_gt in Hlt as ->.
  - intros n subscribed -> Hge Hs. apply Z.leb_le in Hge as ->.
    rewrite Hs. split; by intros ->.
Qed.

(** X20: [mark_subscribed], which no route calls, never raises and saves
    the record set the file held: the flag it sets is on a record of a dict
    that is dropped, so that the [subscribed] field of the user reads as
    before. *)
Theorem mark_subscribed_saves_reload (w : world api) (u : string) :
  mark_subscribed u w = (Build_world (Some (records w)) (stripe w), Ret tt)
  ∧ flag u (mark_subscribed u w).1 = flag u w.
Proof.
  assert (mark_subscribed u w
          = (Build_world (Some (records w)) (stripe w), Ret tt)) as E.
  { unfold mark_subscribed, bind. rewrite get_user_record_run.
    destruct (setdefault u default_record (records w)) as [d r].
    by rewrite load_data_run. }
  split; [done|]. by rewrite E.
Qed.

End Values.

(** X19, for the sample file whose [subscribed] is the string ["false"]. *)
Lemma upload_gate_values_witness :
  upload_gate "a@x.com" (stub_world (Some string_flag_file))
  = (stub_world (Some string_flag_file), Ret Allowed).
Proof.
  destruct (upload_gate_values (stub_world (Some string_flag_file)) "a@x.com"
              _ (VInt 5) eq_refl eq_refl) as (_ & _ & H).
  destruct (H 5 (VStr "false") eq_refl ltac:(unfold FREE_LIMIT; lia) eq_refl)
    as [Ht _].
  apply Ht. reflexivity.
Defined.

(** ** The gate on the records the program writes *)

Section Written.

Context {api : StripeAPI}.
Implicit Types (w : world api) (u k : string) (r : record) (d : data).

Lemma upload_gate_without_used u w rec :
  stored u w = Some rec -> rec !! "used" = None ->
  upload_gate u w = (w, Raise (KeyError "used")).
Proof.
  intros Hrec Hu. rewrite upload_gate_run, Hrec. simpl.
  unfold getitem. by rewrite Hu.
Qed.

Lemma upload_gate_unstored u w :
  stored u w = None -> upload_gate u w = (w, Ret Allowed).
Proof. intros Hrec. by rewrite upload_gate_run, Hrec. Qed.

Lemma create_session_used u' u w :
  stored u (_create_stripe_session u' w).1 ≫= (.!! "used")
  = stored u w ≫= (.!! "used").
Proof.
  destruct (create_session_disk u' w) as [Hd | (id & Hnone & Hd)].
  { by rewrite (stored_same_disk u _ _ Hd). }
  rewrite (stored_after_set _ u _ _ _ Hd).
  destruct (String.eqb_spec u' u) as [->|Hne]; [|done]. simpl.
  unfold cid. rewrite lookup_insert_ne by done.
  by destruct (stored u w).
Qed.

(** No request changes what the file says about the usage of a user. *)
Lemma serve_all_used reqs u w :
  stored u (serve_all reqs w) ≫= (.!! "used") = stored u w ≫= (.!! "used").
Proof.
  revert w. induction reqs as [|req reqs IH]; intros w; simpl; [done|].
  rewrite IH.
  apply (serve_frame (fun w1 w2 =>
           stored u w2 ≫= (.!! "used") = stored u w1 ≫= (.!! "used")));
    try done.
  - intros w1 w2 w3 H12 H23. by rewrite H23.
  - intros u' w0. apply create_session_used.
  - intros u' n w0. unfold stored. by rewrite increment_usage_records.
  - intros _ cust. unfold stored.
    change (records (Build_world (Some (mark_customer cust (records w)))
                       (stripe w)))
      with (mark_customer cust (records w)).
    by apply mark_customer_fields.
Qed.

End Written.

(** C2 (as the code runs it): a user who pays before any upload is not
    [Allowed].  From an absent file, the browser checkout and the webhook of
    the completed checkout leave the record
    [{stripe_customer_id: ..., subscribed: True}]; the entitlement check of
    that user then raises [KeyError] on ["used"], and the upload is answered
    with status 500 whatever it carries.  More generally, from an absent
    file, with any Stripe and after any sequence of requests, no stored
    record holds ["used"]: the check raises [KeyError] for every user the
    file knows and is [Allowed] for every other, so that [QuotaExceeded] is
    never returned. *)
Theorem subscribed_user_is_not_allowed :
  stored "a@x.com" (serve_all paying_user_requests (stub_world None))
  = Some (<["subscribed" := VBool true]> {[ cid := VStr "cus_a@x.com" ]})
  ∧ flag "a@x.com" (serve_all paying_user_requests (stub_world None))
    = Some (VBool true)
  ∧ upload_gate "a@x.com" (serve_all paying_user_requests (stub_world None))
    = (serve_all paying_user_requests (stub_world None),
       Raise (KeyError "used"))
  ∧ (∀ zip_ok work,
        serve (PostUpload (Some "a@x.com") zip_ok work)
          (serve_all paying_user_requests (stub_world None))
        = (serve_all paying_user_requests (stub_world None),
           InternalServerError (KeyError "used")))
  ∧ (∀ (api : StripeAPI) (s : stripe_state api) reqs u,
        match stored u (serve_all reqs (Build_world None s)) with
        | Some _ =>
            upload_gate u (serve_all reqs (Build_world None s))
            = (serve_all reqs (Build_world None s), Raise (KeyError "used"))
        | None =>
            upload_gate u (serve_all reqs (Build_world None s))
            = (serve_all reqs (Build_world None s), Ret Allowed)
        end).
Proof.
  split; [reflexivity|]. split; [reflexivity|]. split; [reflexivity|].
  split; [intros zip_ok work; reflexivity|].
  intros api s reqs u.
  pose proof (serve_all_used reqs u (Build_world None s)) as Hused.
  destruct (stored u (serve_all reqs (Build_world None s))) as [rec|] eqn:E.
  - by apply (upload_gate_without_used _ _ rec).
  - by apply upload_gate_unstored.
Qed.
